(** * DNSCompare: a shallow embedding of [dnscompare.py]

    The program reads a file of [<domain> <record types>] lines, asks two
    nameservers for every record type of every domain, and prints one
    colour-tagged report per pair.  This development embeds the Python
    functions of [dnscompare.py] one by one and proves properties of them.

    Conventions.
    - A Python [str] is a [string]; its characters are the code points
      0..255.
    - A response of [dns_query] is a Python list whose items are strings
      or [None]: a [list (option string)].
    - Effects (calls to [ip_address], [open], [resolver.query] and
      [print]) are recorded in chronological order in a trace that is
      threaded through the code.
    - A call either returns a value, leaves the process through [exit],
      or raises an exception that nothing above it catches. *)

From Stdlib Require Import String Ascii List Bool Arith Lia.
From Stdlib Require Import NArith Permutation Sorted.
Import ListNotations.

Local Open Scope string_scope.
Local Open Scope list_scope.

(** ** Results of a call *)

Inductive exn : Type :=
| IndexError
| ValueError
| IOError
| DNSException (name : string).

Inductive res (A : Type) : Type :=
| Ret (a : A)
| Exit (msg : string)
| Raise (e : exn).

Arguments Ret {A} a.
Arguments Exit {A} msg.
Arguments Raise {A} e.

Definition res_bind {A B : Type} (r : res A) (k : A -> res B) : res B :=
  match r with
  | Ret a => k a
  | Exit msg => Exit msg
  | Raise e => Raise e
  end.

(** ** The Python string operations the program uses *)

Module Py.

Definition nl : string := String (ascii_of_nat 10) EmptyString.

Definition is_empty (s : string) : bool :=
  match s with
  | EmptyString => true
  | String _ _ => false
  end.

(** [str.isspace] on one character, for the code points below 256. *)
Definition is_space (c : ascii) : bool :=
  let n := nat_of_ascii c in
  (Nat.leb 9 n && Nat.leb n 13) || (Nat.leb 28 n && Nat.leb n 32)
  || Nat.eqb n 133 || Nat.eqb n 160.

Fixpoint lstrip (s : string) : string :=
  match s with
  | EmptyString => EmptyString
  | String c s' => if is_space c then lstrip s' else s
  end.

Fixpoint rstrip (s : string) : string :=
  match s with
  | EmptyString => EmptyString
  | String c s' =>
      let r := rstrip s' in
      if is_space c && is_empty r then EmptyString else String c r
  end.

(** [s.strip()] *)
Definition strip (s : string) : string := rstrip (lstrip s).

(** [s.startswith(p)] *)
Definition startswith (s p : string) : bool := String.prefix p s.

(** [s.split(sep)] for a one-character separator: one more piece than
    there are separators, empty pieces included. *)
Fixpoint split (sep : ascii) (s : string) : list string :=
  match s with
  | EmptyString => [EmptyString]
  | String c s' =>
      if Ascii.eqb c sep then EmptyString :: split sep s'
      else match split sep s' with
           | [] => [String c EmptyString]
           | w :: ws => String c w :: ws
           end
  end.

(** [sep.join(l)] *)
Definition join (sep : string) (l : list string) : string :=
  String.concat sep l.

Definition digit (c : ascii) : option nat :=
  let n := nat_of_ascii c in
  if Nat.leb 48 n && Nat.leb n 57 then Some (n - 48) else None.

(** Where [str.format] is while it scans a template. *)
Inductive scan : Type :=
| Text
| Opened
| Index (n : nat).

(** [tpl.format(a0, a1, ...)] for templates whose replacement fields are
    explicitly numbered, [{0}], [{1}], ...: the only kind the program
    writes.  A field whose number is not below [len(args)] raises
    [IndexError]; a brace that does not delimit a numbered field raises
    [ValueError]. *)
Fixpoint format_from (st : scan) (tpl : string) (args : list string)
  : res string :=
  match tpl with
  | EmptyString =>
      match st with
      | Text => Ret EmptyString
      | _ => Raise ValueError
      end
  | String c rest =>
      match st with
      | Text =>
          if Ascii.eqb c "{" then format_from Opened rest args
          else if Ascii.eqb c "}" then Raise ValueError
          else res_bind (format_from Text rest args)
                        (fun s => Ret (String c s))
      | Opened =>
          match digit c with
          | Some d => format_from (Index d) rest args
          | None => Raise ValueError
          end
      | Index n =>
          if Ascii.eqb c "}" then
            match nth_error args n with
            | Some a => res_bind (format_from Text rest args)
                                 (fun s => Ret (a ++ s)%string)
            | None => Raise IndexError
            end
          else
            match digit c with
            | Some d => format_from (Index (10 * n + d)) rest args
            | None => Raise ValueError
            end
      end
  end.

Definition format (tpl : string) (args : list string) : res string :=
  format_from Text tpl args.

Fixpoint insert_sorted (x : string) (l : list string) : list string :=
  match l with
  | [] => [x]
  | y :: l' => if String.leb x y then x :: l else y :: insert_sorted x l'
  end.

(** [sorted(l)] on strings: ascending by code point. *)
Definition sorted (l : list string) : list string :=
  fold_right insert_sorted [] l.

Fixpoint has_char (c : ascii) (s : string) : bool :=
  match s with
  | EmptyString => false
  | String c' s' => Ascii.eqb c' c || has_char c s'
  end.

End Py.

(** ** The libraries and the world around the program *)

(** [colorama.Fore]: the ANSI escape sequences that select a foreground
    colour. *)
Module Fore.
Definition esc : ascii := ascii_of_nat 27.
Definition RED : string := String esc "[31m".
Definition GREEN : string := String esc "[32m".
Definition YELLOW : string := String esc "[33m".
End Fore.

(** What [resolver.query(domain, record_type)] does: it returns records,
    of which the program reads [to_text()], or raises. *)
Inductive answer : Type :=
| Records (texts : list string)
| NoAnswer
| NoNameservers
| NoMetaqueries
| UnknownRdatatype
| Timeout
| OtherException (e : exn).

(** A query as the resolver sees it: the nameserver it was pointed at by
    [resolver.nameservers = [nameserver]], the domain, the record type. *)
Record query : Type := Query {
  q_nameserver : string;
  q_domain : string;
  q_record_type : string
}.

(** What the program does to the world, in the order it does it. *)
Inductive event : Type :=
| IpAddress (ip : string)
| Open (path : string)
| Resolve (q : query)
| Print (text : string).

Definition trace : Type := list event.

Fixpoint queries_of (t : trace) : list query :=
  match t with
  | [] => []
  | Resolve q :: t' => q :: queries_of t'
  | _ :: t' => queries_of t'
  end.

Fixpoint stdout_of (t : trace) : list string :=
  match t with
  | [] => []
  | Print s :: t' => s :: stdout_of t'
  | _ :: t' => stdout_of t'
  end.

(** The world the program runs in: which strings [ipaddress.ip_address]
    accepts, which paths [open] can read and the lines it finds there, and
    what the resolver answers to a query given the queries made so far. *)
Record world : Type := World {
  address : Type;
  ip_address : string -> option address;
  file_lines : string -> option (list string);
  resolve : list query -> query -> answer
}.

(** ** Effectful code: a trace-passing monad over [res] *)

Definition M (A : Type) : Type := trace -> trace * res A.

Definition ret {A : Type} (a : A) : M A := fun t => (t, Ret a).

Definition bind {A B : Type} (m : M A) (k : A -> M B) : M B :=
  fun t =>
    match m t with
    | (t', Ret a) => k a t'
    | (t', Exit msg) => (t', Exit msg)
    | (t', Raise e) => (t', Raise e)
    end.

Definition lift {A : Type} (r : res A) : M A := fun t => (t, r).

Definition emit (e : event) : M unit := fun t => (t ++ [e], Ret tt).

(** [exit(msg)] *)
Definition exit {A : Type} (msg : string) : M A := fun t => (t, Exit msg).

(** [print(text)] *)
Definition print (text : string) : M unit := emit (Print text).

Declare Scope py_scope.
Delimit Scope py_scope with py.
Notation "x <- m ;; k" := (bind m (fun x => k))
  (at level 61, m at next level, right associativity) : py_scope.
Notation "m ;; k" := (bind m (fun _ => k))
  (at level 61, right associativity) : py_scope.
Local Open Scope py_scope.

(** [for x in xs: body(x)] *)
Fixpoint for_each {A : Type} (xs : list A) (body : A -> M unit) : M unit :=
  match xs with
  | [] => ret tt
  | x :: xs' => body x ;; for_each xs' body
  end.

(** ** The program *)

Definition response : Type := list (option string).

(** [None in r] *)
Definition contains_None (r : response) : bool :=
  existsb (fun i => match i with None => true | Some _ => false end) r.

Definition item_eqb (a b : option string) : bool :=
  match a, b with
  | None, None => true
  | Some x, Some y => String.eqb x y
  | _, _ => false
  end.

(** [p == s] on two lists *)
Fixpoint response_eqb (p s : response) : bool :=
  match p, s with
  | [], [] => true
  | a :: p', b :: s' => item_eqb a b && response_eqb p' s'
  | _, _ => false
  end.

(** [(i for i in r if i)]: the items that are neither [None] nor the
    empty string. *)
Fixpoint truthy_items (r : response) : list string :=
  match r with
  | [] => []
  | Some (String c s) :: r' => String c s :: truthy_items r'
  | _ :: r' => truthy_items r'
  end.

(** ['\n'.join(i for i in r if i)] *)
Definition listing (r : response) : string :=
  Py.join Py.nl (truthy_items r).

Module Template.

Definition warning : string :=
  ("{0}Warning! At least 1 response was None, which means we were unable to get "
   ++ "any type of response. This could have happened because of an error."
   ++ Py.nl
   ++ "Please manually verify the check for: {1} - {2} record." ++ Py.nl
   ++ "Primary NS: {3}" ++ Py.nl ++ "Secondary NS: {4}" ++ Py.nl)%string.

Definition success : string :=
  ("{0}Success! {1} - {2} record." ++ Py.nl ++ "Response:" ++ Py.nl
   ++ "{3}" ++ Py.nl)%string.

Definition error : string :=
  ("{0}Error! Difference in DNS responses for {1} - {2} record." ++ Py.nl
   ++ "Primary NS: {3}" ++ Py.nl ++ "Secondary NS: {4}" ++ Py.nl)%string.

Definition metaquery : string :=
  ("{0}You used an invalid query type. Probably ANY, "
   ++ "which is not supported. Exiting." ++ Py.nl)%string.

Definition record_type : string :=
  ("{0}{1} contains invalid DNS record type: {2}" ++ Py.nl
   ++ "Exiting.")%string.

Definition timeout : string :=
  "{0}{1}Error! Timeout while querying the {2} record of {3} at nameserver {4}".

Definition bad_line : string :=
  ("{0}Something went wrong while parsing the input_file." ++ Py.nl
   ++ "The line said: {1}" ++ Py.nl ++ "Exiting." ++ Py.nl)%string.

End Template.

Definition compare_dns_response
    (domain record_type : string) (primary_response secondary_response : response)
  : res string :=
  if contains_None primary_response || contains_None secondary_response then
    Py.format Template.warning
      [Fore.YELLOW; domain; record_type;
       listing primary_response; listing secondary_response]
  else if response_eqb primary_response secondary_response then
    Py.format Template.success
      [Fore.GREEN; domain; record_type; listing primary_response]
  else
    Py.format Template.error
      [Fore.RED; domain; record_type;
       listing primary_response; listing secondary_response].

Record line_data : Type := LineData {
  domain : string;
  records : list string
}.

Definition get_line_data (line : string) : res line_data :=
  let l := Py.split " " line in
  match nth_error l 0, nth_error l 1 with
  | Some l0, Some l1 =>
      Ret {| domain := l0; records := Py.split "," l1 |}
  | _, _ =>
      res_bind (Py.format Template.bad_line [Fore.RED; line])
               (fun msg => Exit msg)
  end.

Definition valid_lines (input_file : list string) : list string :=
  filter (fun l => negb (Py.is_empty l) && negb (Py.startswith l "#"))
         (map Py.strip input_file).

Section Program.

Variable w : world.

(** The assignment [resolver.nameservers = [nameserver]] is taken to
    succeed: [main] calls [dns_query] with addresses that [validate] has
    accepted.  A [Resolve] event is a call of [resolver.query]. *)
Definition dns_query (nameserver domain record_type : string)
  : M response :=
  let q := Query nameserver domain record_type in
  fun t =>
    (emit (Resolve q) ;;
     match resolve w (queries_of t) q with
     | Records texts => ret (map Some (Py.sorted texts))
     | NoAnswer => ret [Some "''"]
     | NoNameservers => ret [Some "''"]
     | NoMetaqueries =>
         msg <- lift (Py.format Template.metaquery [Fore.RED]) ;;
         exit msg
     | UnknownRdatatype =>
         msg <- lift (Py.format Template.record_type
                        [Fore.RED; domain; record_type]) ;;
         exit msg
     | Timeout =>
         text <- lift (Py.format Template.timeout
                         [Fore.RED; record_type; domain; nameserver]) ;;
         print text ;;
         ret [None]
     | OtherException e => lift (Raise e)
     end) t.

Definition valid_ip (ip : string) : M bool :=
  emit (IpAddress ip) ;;
  match ip_address w ip with
  | Some _ => ret true
  | None => ret false
  end.

Definition accessible_file (input_file : string) : M bool :=
  emit (Open input_file) ;;
  match file_lines w input_file with
  | Some _ => ret true
  | None => ret false
  end.

Definition validate (primary_ns secondary_ns input_file : string)
  : M bool :=
  ok <- valid_ip primary_ns ;;
  if negb ok then exit "Invalid IP for primary nameserver (-p flag)"
  else
    ok <- valid_ip secondary_ns ;;
    if negb ok then exit "Invalid IP for secondary nameserver (-s flag)"
    else
      ok <- accessible_file input_file ;;
      if negb ok then exit "Unable to access input file (-f flag)"
      else ret true.

(** [with open(input_file) as f] *)
Definition open (input_file : string) : M (list string) :=
  emit (Open input_file) ;;
  match file_lines w input_file with
  | Some f => ret f
  | None => lift (Raise IOError)
  end.

(** The first loop of [parse_data]: [data.append(get_line_data(line))]
    for every valid line. *)
Fixpoint parse_lines (lines : list string) (data : list line_data)
  : res (list line_data) :=
  match lines with
  | [] => Ret data
  | line :: rest =>
      res_bind (get_line_data line)
               (fun d => parse_lines rest (data ++ [d]))
  end.

(** The last two statements of the inner loop of [parse_data]. *)
Definition report (quiet_mode : bool) (result : string) : M unit :=
  if Py.startswith result Fore.GREEN && quiet_mode then ret tt
  else print result.

Definition query_records
    (primary_ns secondary_ns : string) (quiet_mode : bool) (line : line_data)
  : M unit :=
  for_each (records line) (fun record_type =>
    primary_response <- dns_query primary_ns (domain line) record_type ;;
    secondary_response <- dns_query secondary_ns (domain line) record_type ;;
    result <- lift (compare_dns_response (domain line) record_type
                      primary_response secondary_response) ;;
    report quiet_mode result).

Definition parse_data
    (primary_ns secondary_ns input_file : string) (quiet_mode : bool)
  : M unit :=
  f <- open input_file ;;
  data <- lift (parse_lines (valid_lines f) []) ;;
  for_each data (query_records primary_ns secondary_ns quiet_mode).

Definition main
    (primary_ns secondary_ns input_file : string) (quiet_mode : bool)
  : M unit :=
  validate primary_ns secondary_ns input_file ;;
  parse_data primary_ns secondary_ns input_file quiet_mode.

End Program.

(** ** Reading the program's output *)

(** The texts the templates of the program expand to. *)
Module Message.

Definition warning (domain record_type primary secondary : string)
  : string :=
  (Fore.YELLOW
   ++ "Warning! At least 1 response was None, which means we were unable to get "
   ++ "any type of response. This could have happened because of an error."
   ++ Py.nl
   ++ "Please manually verify the check for: " ++ domain ++ " - "
   ++ record_type ++ " record." ++ Py.nl
   ++ "Primary NS: " ++ primary ++ Py.nl
   ++ "Secondary NS: " ++ secondary ++ Py.nl)%string.

Definition success (domain record_type shared : string) : string :=
  (Fore.GREEN ++ "Success! " ++ domain ++ " - " ++ record_type
   ++ " record." ++ Py.nl ++ "Response:" ++ Py.nl ++ shared ++ Py.nl)%string.

Definition error (domain record_type primary secondary : string)
  : string :=
  (Fore.RED ++ "Error! Difference in DNS responses for " ++ domain
   ++ " - " ++ record_type ++ " record." ++ Py.nl
   ++ "Primary NS: " ++ primary ++ Py.nl
   ++ "Secondary NS: " ++ secondary ++ Py.nl)%string.

Definition bad_line (line : string) : string :=
  (Fore.RED ++ "Something went wrong while parsing the input_file."
   ++ Py.nl ++ "The line said: " ++ line ++ Py.nl ++ "Exiting." ++ Py.nl)%string.

End Message.

(** The three outcomes a report can announce.  The program has no type
    for them: a report announces its outcome by its colour and its first
    word, and [parse_data] itself recognises a success by the colour. *)
Inductive outcome : Type :=
| Success
| Warning
| Error.

Definition outcome_of (report_text : string) : option outcome :=
  if Py.startswith report_text (Fore.GREEN ++ "Success!")%string
  then Some Success
  else if Py.startswith report_text (Fore.YELLOW ++ "Warning!")%string
  then Some Warning
  else if Py.startswith report_text (Fore.RED ++ "Error!")%string
  then Some Error
  else None.

(** What is left of a trace when the reports that start in green are
    taken out of it. *)
Definition shown_when_quiet (e : event) : bool :=
  match e with
  | Print text => negb (Py.startswith text Fore.GREEN)
  | _ => true
  end.

Definition quiet_view (t : trace) : trace := filter shown_when_quiet t.

(** [mq] does in quiet mode what [mn] does without it: from the quiet
    view of a trace, [mq] reaches the quiet view of the trace [mn]
    reaches, with the same result. *)
Definition quiet_version {A : Type} (mq mn : M A) : Prop :=
  forall t : trace, mq (quiet_view t) = (quiet_view (fst (mn t)), snd (mn t)).

(** What [dns_query] returns when the resolver has no answer. *)
Definition no_answer : response := [Some "''"].

(** ** The specification's wording, for comparison with the code *)

Module Spec.

(** The text before the first occurrence of [c] and the whole text after
    it. *)
Fixpoint split_at_first (c : ascii) (s : string)
  : option (string * string) :=
  match s with
  | EmptyString => None
  | String c' s' =>
      if Ascii.eqb c' c then Some (EmptyString, s')
      else match split_at_first c s' with
           | Some (a, b) => Some (String c' a, b)
           | None => None
           end
  end.

(** The Line Parser as the specification words it: the line is split on
    its first space, and everything after that space is the
    comma-separated list of record types. *)
Definition line_parser (line : string) : option line_data :=
  match split_at_first " " line with
  | Some (d, field) =>
      Some {| domain := d; records := Py.split "," field |}
  | None => None
  end.

(** A result sequence listed as the specification words it: one line
    per entry, a null entry as an empty line. *)
Definition listing (r : response) : string :=
  Py.join Py.nl
    (map (fun i => match i with
                   | Some s => s
                   | None => EmptyString
                   end) r).

(** The result the specification gives [dns_query] when the resolver
    has no answer: the empty string, alone. *)
Definition no_answer : response := [Some EmptyString].

End Spec.

(** ** Sample worlds *)

Module Sample.

Definition lines : list string :=
  [("# domains to compare" ++ Py.nl)%string;
   ("example.org A,MX" ++ Py.nl)%string;
   Py.nl;
   ("example.com  TXT" ++ Py.nl)%string].

Definition broken_lines : list string :=
  [("example.org A,MX" ++ Py.nl)%string;
   ("example.com" ++ Py.nl)%string].

Definition files (path : string) : option (list string) :=
  if String.eqb path "domains.txt" then Some lines
  else if String.eqb path "broken.txt" then Some broken_lines
  else None.

Definition addresses (ip : string) : option unit :=
  if String.eqb ip "208.67.222.222" then Some tt
  else if String.eqb ip "8.8.8.8" then Some tt
  else None.

(** Every query is answered by the same records. *)
Definition agreeing : world :=
  {| address := unit;
     ip_address := addresses;
     file_lines := files;
     resolve := fun _ _ => Records ["93.184.216.34"] |}.

(** No query is answered. *)
Definition silent : world :=
  {| address := unit;
     ip_address := addresses;
     file_lines := files;
     resolve := fun _ _ => NoAnswer |}.

(** The secondary nameserver, 8.8.8.8, never answers in time. *)
Definition slow_secondary : world :=
  {| address := unit;
     ip_address := addresses;
     file_lines := files;
     resolve := fun _ q =>
       if String.eqb (q_nameserver q) "8.8.8.8" then Timeout
       else Records ["93.184.216.34"] |}.

End Sample.

(** ** Vocabulary for whole runs *)

(** The answers after which [dns_query] returns a response. *)
Definition returns_response (a : answer) : bool :=
  match a with
  | Records _ | NoAnswer | NoNameservers => true
  | _ => false
  end.

(** The queries [parse_data] makes for one parsed line when nothing stops
    it: for every record type, in order, the primary nameserver and then
    the secondary. *)
Definition queries_for (p s : string) (line : line_data) : list query :=
  flat_map (fun rt => [Query p (domain line) rt; Query s (domain line) rt])
           (records line).

Definition queries_for_all (p s : string) (data : list line_data)
  : list query :=
  flat_map (queries_for p s) data.

(** The number of (domain, record type) pairs of the parsed lines. *)
Definition pairs (data : list line_data) : nat :=
  list_sum (map (fun line => length (records line)) data).

(** [m] keeps the invariant [Inv] of the trace, however it ends, and what
    it returns satisfies [Q]. *)
Definition keeps {A : Type}
    (Inv : trace -> Prop) (m : M A) (Q : A -> Prop) : Prop :=
  forall t : trace,
    Inv t -> Inv (fst (m t)) /\ forall a : A, snd (m t) = Ret a -> Q a.

Definition success_or_error (text : string) : Prop :=
  outcome_of text = Some Success \/ outcome_of text = Some Error.

(** Every line printed so far is a Success report or an Error report. *)
Definition only_success_or_error (t : trace) : Prop :=
  Forall success_or_error (stdout_of t).

(** Two worlds whose resolvers answer alike. *)
Definition same_answers (w1 w2 : world) : Prop :=
  forall (h : list query) (q : query), resolve w1 h q = resolve w2 h q.

(** The first and the last character of a text, when it has one. *)
Definition first_char (s : string) : option ascii :=
  match s with
  | EmptyString => None
  | String c _ => Some c
  end.

Fixpoint last_char (s : string) : option ascii :=
  match s with
  | EmptyString => None
  | String c EmptyString => Some c
  | String _ s' => last_char s'
  end.

Definition is_space_opt (c : option ascii) : bool :=
  match c with
  | Some c => Py.is_space c
  | None => false
  end.

Module Sample2.

(** The lines of [Sample.lines] with one comment more. *)
Definition commented_lines : list string :=
  [("# domains to compare" ++ Py.nl)%string;
   ("example.org A,MX" ++ Py.nl)%string;
   ("   # the next one has two spaces" ++ Py.nl)%string;
   Py.nl;
   ("example.com  TXT" ++ Py.nl)%string].

Definition commented : world :=
  {| address := unit;
     ip_address := Sample.addresses;
     file_lines := fun path =>
       if String.eqb path "domains.txt" then Some commented_lines else None;
     resolve := fun _ _ => Records ["93.184.216.34"] |}.

(** The record type [ANY] is refused by the resolver, and the type
    [BOGUS] is unknown to it. *)
Definition strict : world :=
  {| address := unit;
     ip_address := Sample.addresses;
     file_lines := Sample.files;
     resolve := fun _ q =>
       if String.eqb (q_record_type q) "ANY" then NoMetaqueries
       else if String.eqb (q_record_type q) "BOGUS" then UnknownRdatatype
       else Records ["93.184.216.34"] |}.

(** The two nameservers give the same addresses in different orders. *)
Definition shuffled : world :=
  {| address := unit;
     ip_address := Sample.addresses;
     file_lines := Sample.files;
     resolve := fun _ q =>
       if String.eqb (q_nameserver q) "8.8.8.8"
       then Records ["93.184.216.34"; "10.0.0.1"; "172.16.0.9"]
       else Records ["172.16.0.9"; "93.184.216.34"; "10.0.0.1"] |}.

End Sample2.

(** ** The reports a run owes *)

(** The response [dns_query] returns after an answer of the resolver, for
    the answers after which it returns one. *)
Definition response_of (a : answer) : option response :=
  match a with
  | Records texts => Some (map Some (Py.sorted texts))
  | NoAnswer | NoNameservers => Some no_answer
  | _ => None
  end.

(** The pairs of a domain and a record type of the parsed lines, in the
    order in which [parse_data] takes them: line after line, and in a line
    record type after record type. *)
Definition pairs_of (data : list line_data) : list (string * string) :=
  flat_map (fun line => map (pair (domain line)) (records line)) data.

(** The body of the inner loop of [parse_data] for one pair. *)
Definition query_pair
    (w : world) (primary_ns secondary_ns : string) (quiet_mode : bool)
    (pr : string * string) : M unit :=
  (primary_response <- dns_query w primary_ns (fst pr) (snd pr) ;;
   secondary_response <- dns_query w secondary_ns (fst pr) (snd pr) ;;
   result <- lift (compare_dns_response (fst pr) (snd pr)
                     primary_response secondary_response) ;;
   report quiet_mode result)%py.

(** The reports the pairs are owed, whatever the mode, by a resolver that
    has been asked the queries [h]: for every pair in turn, the report of
    [compare_dns_response] on that pair's domain and record type, on the
    response of the primary nameserver and then on the response of the
    secondary nameserver, asked in that order.  The list ends before the
    first pair for which a query returns no response: the run ends
    there. *)
Fixpoint reports_due
    (w : world) (p s : string) (prs : list (string * string))
    (h : list query) : list string :=
  match prs with
  | [] => []
  | (d, rt) :: rest =>
      match response_of (resolve w h (Query p d rt)) with
      | None => []
      | Some primary_response =>
          match response_of
                  (resolve w (h ++ [Query p d rt]) (Query s d rt)) with
          | None => []
          | Some secondary_response =>
              match compare_dns_response d rt
                      primary_response secondary_response with
              | Ret text =>
                  text :: reports_due w p s rest
                            (h ++ [Query p d rt; Query s d rt])
              | _ => []
              end
          end
      end
  end.

Definition is_success (report_text : string) : bool :=
  match outcome_of report_text with
  | Some Success => true
  | _ => false
  end.

(** The parsed lines with which a run of [main] reaches its queries, when
    it reaches them: the checks of [validate] pass and every valid line
    parses. *)
Definition data_of_run (w : world) (p s f : string)
  : option (list line_data) :=
  match ip_address w p, ip_address w s, file_lines w f with
  | Some _, Some _, Some lines =>
      match parse_lines (valid_lines lines) [] with
      | Ret data => Some data
      | _ => None
      end
  | _, _, _ => None
  end.

(** The responses [dns_query] is written to return (lines 79, 81, 83 and
    93): the sorted texts of the records, none of them empty; the
    placeholder for no answer; [None] alone. *)
Definition dns_query_shaped (r : response) : Prop :=
  r = [None]
  \/ r = no_answer
  \/ exists texts : list string,
       Forall (fun text => text <> EmptyString) texts
       /\ r = map Some (Py.sorted texts).

Module Sample3.

(** The two nameservers agree, except on the [MX] records. *)
Definition disagreeing : world :=
  {| address := unit;
     ip_address := Sample.addresses;
     file_lines := Sample.files;
     resolve := fun _ q =>
       if String.eqb (q_record_type q) "MX"
          && String.eqb (q_nameserver q) "8.8.8.8"
       then Records ["10.0.0.2"; "10.0.0.1"]
       else Records ["93.184.216.34"] |}.

End Sample3.

(** * Properties *)

(** ** The string operations on examples *)

Example split_spaces :
  Py.split " " "a  b" = ["a"; EmptyString; "b"].
Proof. reflexivity. Qed.

Example split_empty : Py.split "," EmptyString = [EmptyString].
Proof. reflexivity. Qed.

Example strip_line :
  Py.strip ("  example.org A,MX " ++ Py.nl)%string = "example.org A,MX".
Proof. reflexivity. Qed.

Example format_two :
  Py.format "{0}-{1}!" ["a"; "bc"] = Ret "a-bc!".
Proof. reflexivity. Qed.

Example format_out_of_range :
  Py.format "{0}-{2}!" ["a"; "bc"] = Raise IndexError.
Proof. reflexivity. Qed.

Example sorted_texts :
  Py.sorted ["b"; "a"; "B"; "a"] = ["B"; "a"; "a"; "b"].
Proof. reflexivity. Qed.

(** ** Splitting and joining *)

Section Split.

Variable sep : ascii.

Lemma split_not_nil (s : string) : Py.split sep s <> [].
Proof.
  destruct s as [|c s]; simpl; [discriminate|].
  destruct (Ascii.eqb c sep); [discriminate|].
  destruct (Py.split sep s); discriminate.
Qed.

Lemma split_without_sep (s : string) :
  Py.has_char sep s = false -> Py.split sep s = [s].
Proof.
  induction s as [|c s IH]; simpl; intros H; [reflexivity|].
  apply orb_false_elim in H as [Hc Hs].
  rewrite Hc, (IH Hs). reflexivity.
Qed.

Lemma split_at_sep (a b : string) :
  Py.has_char sep a = false ->
  Py.split sep (a ++ String sep b) = a :: Py.split sep b.
Proof.
  induction a as [|c a IH]; simpl; intros H.
  - rewrite Ascii.eqb_refl. reflexivity.
  - apply orb_false_elim in H as [Hc Ha].
    rewrite Hc, (IH Ha). reflexivity.
Qed.

Lemma has_char_decompose (s : string) :
  Py.has_char sep s = true ->
  exists a b, s = (a ++ String sep b)%string /\ Py.has_char sep a = false.
Proof.
  induction s as [|c s IH]; simpl; intros H; [discriminate|].
  destruct (Ascii.eqb c sep) eqn:Hc.
  - apply Ascii.eqb_eq in Hc. subst c.
    exists EmptyString, s. split; reflexivity.
  - simpl in H. destruct (IH H) as (a & b & -> & Ha).
    exists (String c a), b. simpl. rewrite Hc, Ha. split; reflexivity.
Qed.

(** Joining the pieces with the separator gives the text back: the
    pieces are in the order of the text. *)
Lemma join_split (s : string) :
  Py.join (String sep EmptyString) (Py.split sep s) = s.
Proof.
  induction s as [|c s IH]; [reflexivity|].
  simpl. destruct (Ascii.eqb c sep) eqn:Hc.
  - apply Ascii.eqb_eq in Hc. subst c.
    pose proof (split_not_nil s) as Hn.
    unfold Py.join in *. simpl.
    destruct (Py.split sep s) as [|x xs]; [contradiction|].
    simpl. f_equal. exact IH.
  - pose proof (split_not_nil s) as Hn.
    unfold Py.join in *.
    destruct (Py.split sep s) as [|x xs]; [contradiction|].
    simpl in *. destruct xs; simpl in *; now rewrite <- IH.
Qed.

End Split.

(** ** What the templates expand to *)

Lemma format_warning (d rt p s : string) :
  Py.format Template.warning [Fore.YELLOW; d; rt; p; s]
  = Ret (Message.warning d rt p s).
Proof. reflexivity. Qed.

Lemma format_success (d rt p : string) :
  Py.format Template.success [Fore.GREEN; d; rt; p]
  = Ret (Message.success d rt p).
Proof. reflexivity. Qed.

Lemma format_error (d rt p s : string) :
  Py.format Template.error [Fore.RED; d; rt; p; s]
  = Ret (Message.error d rt p s).
Proof. reflexivity. Qed.

Lemma format_bad_line (line : string) :
  Py.format Template.bad_line [Fore.RED; line]
  = Ret (Message.bad_line line).
Proof. reflexivity. Qed.

(** The template of the timeout line names five fields, [{0}] to [{4}],
    and is given four arguments. *)
Lemma format_timeout (a0 a1 a2 a3 : string) :
  Py.format Template.timeout [a0; a1; a2; a3] = Raise IndexError.
Proof. reflexivity. Qed.

Lemma outcome_of_warning (d rt p s : string) :
  outcome_of (Message.warning d rt p s) = Some Warning.
Proof. reflexivity. Qed.

Lemma outcome_of_success (d rt p : string) :
  outcome_of (Message.success d rt p) = Some Success.
Proof. reflexivity. Qed.

Lemma outcome_of_error (d rt p s : string) :
  outcome_of (Message.error d rt p s) = Some Error.
Proof. reflexivity. Qed.

Lemma warning_is_not_green (d rt p s : string) :
  Py.startswith (Message.warning d rt p s) Fore.GREEN = false.
Proof. reflexivity. Qed.

Lemma error_is_not_green (d rt p s : string) :
  Py.startswith (Message.error d rt p s) Fore.GREEN = false.
Proof. reflexivity. Qed.

Lemma success_is_green (d rt p : string) :
  Py.startswith (Message.success d rt p) Fore.GREEN = true.
Proof. reflexivity. Qed.

(** ** Comparing two responses *)

Lemma item_eqb_eq (a b : option string) : item_eqb a b = true <-> a = b.
Proof.
  destruct a as [x|], b as [y|]; simpl; split; intros H;
    try discriminate; try reflexivity.
  - apply String.eqb_eq in H. now subst.
  - injection H as ->. apply String.eqb_refl.
Qed.

Lemma response_eqb_eq (p s : response) :
  response_eqb p s = true <-> p = s.
Proof.
  revert s. induction p as [|a p IH]; intros [|b s]; simpl; split;
    intros H; try discriminate; try reflexivity.
  - apply andb_true_iff in H as [Hab Hps].
    apply item_eqb_eq in Hab. apply IH in Hps. now subst.
  - injection H as -> ->. apply andb_true_iff. split.
    + now apply item_eqb_eq.
    + now apply IH.
Qed.

Lemma response_eqb_neq (p s : response) :
  response_eqb p s = false <-> p <> s.
Proof.
  split.
  - intros H E. apply response_eqb_eq in E. congruence.
  - intros H. destruct (response_eqb p s) eqn:E; [|reflexivity].
    apply response_eqb_eq in E. contradiction.
Qed.

Lemma contains_None_In (r : response) :
  contains_None r = true <-> In None r.
Proof.
  unfold contains_None. rewrite existsb_exists. split.
  - intros ([x|] & Hin & Hx); [discriminate|exact Hin].
  - intros H. exists None. split; [exact H|reflexivity].
Qed.

Lemma compare_with_None (d rt : string) (p s : response) :
  contains_None p || contains_None s = true ->
  compare_dns_response d rt p s
  = Ret (Message.warning d rt (listing p) (listing s)).
Proof.
  intros H. unfold compare_dns_response. rewrite H. apply format_warning.
Qed.

Lemma compare_equal (d rt : string) (p : response) :
  contains_None p = false ->
  compare_dns_response d rt p p = Ret (Message.success d rt (listing p)).
Proof.
  intros H. unfold compare_dns_response. rewrite H. simpl.
  replace (response_eqb p p) with true
    by (symmetry; now apply response_eqb_eq).
  apply format_success.
Qed.

Lemma compare_different (d rt : string) (p s : response) :
  contains_None p = false -> contains_None s = false -> p <> s ->
  compare_dns_response d rt p s
  = Ret (Message.error d rt (listing p) (listing s)).
Proof.
  intros Hp Hs Hne. unfold compare_dns_response. rewrite Hp, Hs. simpl.
  apply response_eqb_neq in Hne. rewrite Hne. apply format_error.
Qed.

(** [compare_dns_response] always returns a report, and the report
    announces one of the three outcomes. *)
Lemma compare_returns (d rt : string) (p s : response) :
  exists text o,
    compare_dns_response d rt p s = Ret text /\ outcome_of text = Some o.
Proof.
  destruct (contains_None p || contains_None s) eqn:Hn.
  - exists (Message.warning d rt (listing p) (listing s)), Warning.
    split; [now apply compare_with_None|reflexivity].
  - apply orb_false_elim in Hn as [Hp Hs].
    destruct (response_eqb p s) eqn:He.
    + apply response_eqb_eq in He. subst s.
      exists (Message.success d rt (listing p)), Success.
      split; [now apply compare_equal|reflexivity].
    + apply response_eqb_neq in He.
      exists (Message.error d rt (listing p) (listing s)), Error.
      split; [now apply compare_different|reflexivity].
Qed.

(** ** The Resolver Adapter *)

Section Resolver.

Variable w : world.

Lemma dns_query_step (ns d rt : string) (t : trace) :
  dns_query w ns d rt t
  = match resolve w (queries_of t) (Query ns d rt) with
    | Records texts =>
        (t ++ [Resolve (Query ns d rt)], Ret (map Some (Py.sorted texts)))
    | NoAnswer | NoNameservers =>
        (t ++ [Resolve (Query ns d rt)], Ret no_answer)
    | NoMetaqueries =>
        (t ++ [Resolve (Query ns d rt)],
         Exit (Fore.RED ++ "You used an invalid query type. Probably ANY, "
               ++ "which is not supported. Exiting." ++ Py.nl)%string)
    | UnknownRdatatype =>
        (t ++ [Resolve (Query ns d rt)],
         Exit (Fore.RED ++ d ++ " contains invalid DNS record type: " ++ rt
               ++ Py.nl ++ "Exiting.")%string)
    | Timeout => (t ++ [Resolve (Query ns d rt)], Raise IndexError)
    | OtherException e => (t ++ [Resolve (Query ns d rt)], Raise e)
    end.
Proof.
  unfold dns_query, bind, emit.
  destruct (resolve w (queries_of t) (Query ns d rt)); reflexivity.
Qed.

End Resolver.

(** C1.  A query that times out does not make [dns_query] print a line
    and return [[None]]: expanding the template of the line raises
    [IndexError], which nothing catches, so the call leaves the trace with
    the query alone, without a [Print], and the exception as its result. *)
Theorem dns_query_timeout_raises
    (w : world) (ns d rt : string) (t : trace) :
  resolve w (queries_of t) (Query ns d rt) = Timeout ->
  dns_query w ns d rt t = (t ++ [Resolve (Query ns d rt)], Raise IndexError).
Proof.
  intros H. rewrite dns_query_step, H. reflexivity.
Qed.

Lemma dns_query_timeout_raises_witness :
  dns_query Sample.slow_secondary "8.8.8.8" "example.org" "A" []
  = ([Resolve (Query "8.8.8.8" "example.org" "A")], Raise IndexError).
Proof.
  apply (dns_query_timeout_raises Sample.slow_secondary
           "8.8.8.8" "example.org" "A" []).
  reflexivity.
Defined.

(** The run ends at the first query that times out: the later record
    types and lines are never queried and nothing is printed for the
    pair. *)
Example timeout_ends_the_run :
  main Sample.slow_secondary "208.67.222.222" "8.8.8.8" "domains.txt" false []
  = ([IpAddress "208.67.222.222"; IpAddress "8.8.8.8";
      Open "domains.txt"; Open "domains.txt";
      Resolve (Query "208.67.222.222" "example.org" "A");
      Resolve (Query "8.8.8.8" "example.org" "A")],
     Raise IndexError).
Proof. reflexivity. Qed.

(** C2, as stated, fails: with no answer, the only element of the result
    is not the empty string. *)
Lemma no_answer_is_not_the_empty_string :
  resolve Sample.silent [] (Query "208.67.222.222" "example.org" "MX")
  = NoAnswer
  /\ snd (dns_query Sample.silent "208.67.222.222" "example.org" "MX" [])
     <> Ret Spec.no_answer.
Proof. split; [reflexivity|discriminate]. Qed.

(** C2, amended.  When the resolver reports no answer or no usable
    nameserver, [dns_query] returns the one-element list whose element is
    the two-character text [''] (two apostrophes) and prints nothing.  The
    result holds no [None], and two such results compare as a Success
    whose listing shows ['']. *)
Theorem dns_query_no_answer
    (w : world) (ns d rt : string) (t : trace) :
  resolve w (queries_of t) (Query ns d rt) = NoAnswer
  \/ resolve w (queries_of t) (Query ns d rt) = NoNameservers ->
  dns_query w ns d rt t = (t ++ [Resolve (Query ns d rt)], Ret [Some "''"])
  /\ contains_None [Some "''"] = false
  /\ compare_dns_response d rt [Some "''"] [Some "''"]
     = Ret (Message.success d rt "''")
  /\ outcome_of (Message.success d rt "''") = Some Success.
Proof.
  intros H. split; [|repeat split].
  rewrite dns_query_step. destruct H as [-> | ->]; reflexivity.
Qed.

Lemma dns_query_no_answer_witness :
  dns_query Sample.silent "208.67.222.222" "example.org" "MX" []
  = ([Resolve (Query "208.67.222.222" "example.org" "MX")], Ret [Some "''"])
  /\ contains_None [Some "''"] = false
  /\ compare_dns_response "example.org" "MX" [Some "''"] [Some "''"]
     = Ret (Message.success "example.org" "MX" "''")
  /\ outcome_of (Message.success "example.org" "MX" "''") = Some Success.
Proof.
  apply (dns_query_no_answer Sample.silent
           "208.67.222.222" "example.org" "MX" []).
  left. reflexivity.
Defined.

(** ** The Comparator *)

(** C3.  If either response contains [None], the report is the Warning,
    whatever the other response holds; so it is for two responses that are
    both [[None]], although they are equal. *)
Theorem None_gives_warning (d rt : string) (p s : response) :
  In None p \/ In None s ->
  compare_dns_response d rt p s
  = Ret (Message.warning d rt (listing p) (listing s))
  /\ outcome_of (Message.warning d rt (listing p) (listing s)) = Some Warning.
Proof.
  intros H. split; [|reflexivity].
  apply compare_with_None. apply orb_true_iff.
  destruct H as [H | H]; [left | right]; now apply contains_None_In.
Qed.

Lemma None_gives_warning_witness :
  compare_dns_response "example.org" "A" [None] [None]
  = Ret (Message.warning "example.org" "A" (listing [None]) (listing [None]))
  /\ outcome_of
       (Message.warning "example.org" "A" (listing [None]) (listing [None]))
     = Some Warning.
Proof.
  apply (None_gives_warning "example.org" "A" [None] [None]).
  left. simpl. left. reflexivity.
Defined.

(** C4.  For two responses without [None], the report is the Success
    exactly when the two lists are equal, item by item, and the Error
    otherwise. *)
Theorem equal_gives_success_else_error (d rt : string) (p s : response) :
  ~ In None p -> ~ In None s ->
  (p = s ->
   compare_dns_response d rt p s = Ret (Message.success d rt (listing p))
   /\ outcome_of (Message.success d rt (listing p)) = Some Success)
  /\ (p <> s ->
      compare_dns_response d rt p s
      = Ret (Message.error d rt (listing p) (listing s))
      /\ outcome_of (Message.error d rt (listing p) (listing s))
         = Some Error).
Proof.
  intros Hp Hs.
  assert (contains_None p = false) as Hp'.
  { destruct (contains_None p) eqn:E; [|reflexivity].
    apply contains_None_In in E. contradiction. }
  assert (contains_None s = false) as Hs'.
  { destruct (contains_None s) eqn:E; [|reflexivity].
    apply contains_None_In in E. contradiction. }
  split.
  - intros <-. split; [now apply compare_equal|reflexivity].
  - intros Hne. split; [now apply compare_different|reflexivity].
Qed.

(** Equal elements with different multiplicities: an Error. *)
Lemma equal_gives_success_else_error_witness :
  compare_dns_response "example.org" "A"
    [Some "A"; Some "A"; Some "B"] [Some "A"; Some "B"]
  = Ret (Message.error "example.org" "A"
           (listing [Some "A"; Some "A"; Some "B"])
           (listing [Some "A"; Some "B"]))
  /\ outcome_of
       (Message.error "example.org" "A"
          (listing [Some "A"; Some "A"; Some "B"])
          (listing [Some "A"; Some "B"]))
     = Some Error.
Proof.
  apply (equal_gives_success_else_error "example.org" "A"
           [Some "A"; Some "A"; Some "B"] [Some "A"; Some "B"]).
  - simpl. intros [H | [H | [H | []]]]; discriminate.
  - simpl. intros [H | [H | []]]; discriminate.
  - discriminate.
Defined.

Example same_address_succeeds :
  compare_dns_response "example.org" "A" [Some "1.2.3.4"] [Some "1.2.3.4"]
  = Ret (Message.success "example.org" "A" "1.2.3.4").
Proof. reflexivity. Qed.

Example different_addresses_fail :
  compare_dns_response "example.org" "A" [Some "1.2.3.4"] [Some "5.6.7.8"]
  = Ret (Message.error "example.org" "A" "1.2.3.4" "5.6.7.8").
Proof. reflexivity. Qed.

Lemma truthy_items_skip_None (r1 r2 : response) :
  truthy_items (r1 ++ None :: r2) = truthy_items (r1 ++ r2).
Proof.
  induction r1 as [|[[|c x]|] r1 IH]; simpl; try assumption.
  - reflexivity.
  - now rewrite IH.
Qed.

Lemma truthy_items_In (x : string) (r : response) :
  In x (truthy_items r) <-> In (Some x) r /\ x <> EmptyString.
Proof.
  induction r as [|[[|c y]|] r IH]; simpl.
  - tauto.
  - rewrite IH. split.
    + intros [H1 H2]. split; [now right|assumption].
    + intros [[H | H] H2]; [|now split].
      injection H as <-. contradiction.
  - rewrite IH. split.
    + intros [<- | [H1 H2]].
      * split; [now left|discriminate].
      * split; [now right|assumption].
    + intros [[H | H] H2].
      * injection H as <-. now left.
      * right. now split.
  - rewrite IH. split.
    + intros [H1 H2]. split; [now right|assumption].
    + intros [[H | H] H2]; [discriminate|now split].
Qed.

(** ** Quiet mode *)

Lemma report_green (quiet_mode : bool) (text : string) (t : trace) :
  Py.startswith text Fore.GREEN = true ->
  report quiet_mode text t
  = if quiet_mode then (t, Ret tt) else (t ++ [Print text], Ret tt).
Proof.
  intros H. unfold report. rewrite H. now destruct quiet_mode.
Qed.

Lemma report_not_green (quiet_mode : bool) (text : string) (t : trace) :
  Py.startswith text Fore.GREEN = false ->
  report quiet_mode text t = (t ++ [Print text], Ret tt).
Proof.
  intros H. unfold report. rewrite H. reflexivity.
Qed.

(** Whatever is compared, the comparison returns a report that announces
    an outcome; the report is printed without quiet mode, and in quiet
    mode unless the outcome is a Success. *)
Lemma report_by_outcome
    (d rt : string) (p s : response) (t : trace) :
  exists text : string,
    compare_dns_response d rt p s = Ret text
    /\ report false text t = (t ++ [Print text], Ret tt)
    /\ match outcome_of text with
       | Some Success => report true text t = (t, Ret tt)
       | Some Warning | Some Error =>
           report true text t = (t ++ [Print text], Ret tt)
       | None => False
       end.
Proof.
  destruct (contains_None p || contains_None s) eqn:Hn.
  - exists (Message.warning d rt (listing p) (listing s)).
    rewrite outcome_of_warning.
    split; [now apply compare_with_None|].
    split; apply report_not_green, warning_is_not_green.
  - apply orb_false_elim in Hn as [Hp Hs].
    destruct (response_eqb p s) eqn:He.
    + apply response_eqb_eq in He. subst s.
      exists (Message.success d rt (listing p)).
      rewrite outcome_of_success.
      split; [now apply compare_equal|].
      split; now rewrite report_green by apply success_is_green.
    + apply response_eqb_neq in He.
      exists (Message.error d rt (listing p) (listing s)).
      rewrite outcome_of_error.
      split; [now apply compare_different|].
      split; apply report_not_green, error_is_not_green.
Qed.

(** ** The Line Parser *)

Lemma get_line_data_without_space (line : string) :
  Py.has_char " " line = false ->
  get_line_data line = Exit (Message.bad_line line).
Proof.
  intros H. unfold get_line_data.
  rewrite (split_without_sep " " line H). cbn [nth_error].
  rewrite format_bad_line. reflexivity.
Qed.

(** The domain is the text before the first space; the record types come
    from the piece that follows it, which ends at the next space. *)
Lemma get_line_data_at_space (d rest : string) :
  Py.has_char " " d = false ->
  get_line_data (d ++ String " " rest)
  = Ret {| domain := d;
           records := Py.split "," (hd EmptyString (Py.split " " rest)) |}.
Proof.
  intros H. unfold get_line_data.
  rewrite (split_at_sep " " d rest H).
  pose proof (split_not_nil " " rest) as Hn.
  destruct (Py.split " " rest) as [|x xs]; [contradiction|reflexivity].
Qed.

Lemma get_line_data_with_space (line : string) :
  Py.has_char " " line = true -> exists d, get_line_data line = Ret d.
Proof.
  intros H. destruct (has_char_decompose " " line H) as (a & b & -> & Ha).
  rewrite (get_line_data_at_space a b Ha). eauto.
Qed.

Lemma get_line_data_two_fields (d f : string) :
  Py.has_char " " d = false -> Py.has_char " " f = false ->
  get_line_data (d ++ " " ++ f)
  = Ret {| domain := d; records := Py.split "," f |}.
Proof.
  intros Hd Hf. change (d ++ " " ++ f)%string with (d ++ String " " f)%string.
  rewrite (get_line_data_at_space d f Hd), (split_without_sep " " f Hf).
  reflexivity.
Qed.

Lemma get_line_data_more_fields (d f rest : string) :
  Py.has_char " " d = false -> Py.has_char " " f = false ->
  get_line_data (d ++ " " ++ f ++ " " ++ rest)
  = Ret {| domain := d; records := Py.split "," f |}.
Proof.
  intros Hd Hf.
  change (d ++ " " ++ f ++ " " ++ rest)%string
    with (d ++ String " " (f ++ String " " rest))%string.
  rewrite (get_line_data_at_space d _ Hd), (split_at_sep " " f rest Hf).
  reflexivity.
Qed.

Lemma split_at_first_app (c : ascii) (a b : string) :
  Py.has_char c a = false ->
  Spec.split_at_first c (a ++ String c b) = Some (a, b).
Proof.
  induction a as [|x a IH]; simpl; intros H.
  - now rewrite Ascii.eqb_refl.
  - apply orb_false_elim in H as [Hx Ha]. now rewrite Hx, (IH Ha).
Qed.

(** C7, as stated, fails: text after a second space is not part of the
    record-type field. *)
Lemma text_after_second_space_is_not_a_record_type :
  exists d : line_data,
    get_line_data "example.org A,MX TXT" = Ret d
    /\ records d = ["A"; "MX"]
    /\ Spec.line_parser "example.org A,MX TXT"
       = Some {| domain := "example.org"; records := ["A"; "MX TXT"] |}
    /\ Spec.line_parser "example.org A,MX TXT" <> Some d
    /\ valid_lines [(" example.org A,MX TXT" ++ Py.nl)%string]
       = ["example.org A,MX TXT"].
Proof.
  eexists. split; [reflexivity|].
  split; [reflexivity|]. split; [reflexivity|].
  split; [discriminate|reflexivity].
Qed.

(** C7, amended.  The domain is the text before the first space, and the
    record-type field is the text between the first space and the second
    (up to the end of the line when there is no second space), split on
    commas, the record types in the order of the field.  On a line with
    one space this is the Line Parser of the specification. *)
Theorem get_line_data_fields (d f : string) :
  Py.has_char " " d = false -> Py.has_char " " f = false ->
  get_line_data (d ++ " " ++ f)
  = Ret {| domain := d; records := Py.split "," f |}
  /\ Spec.line_parser (d ++ " " ++ f)
     = Some {| domain := d; records := Py.split "," f |}
  /\ (forall rest : string,
        get_line_data (d ++ " " ++ f ++ " " ++ rest)
        = Ret {| domain := d; records := Py.split "," f |})
  /\ Py.join "," (Py.split "," f) = f.
Proof.
  intros Hd Hf. split; [|split; [|split]].
  - now apply get_line_data_two_fields.
  - unfold Spec.line_parser.
    change (d ++ " " ++ f)%string with (d ++ String " " f)%string.
    now rewrite (split_at_first_app " " d f Hd).
  - intros rest. now apply get_line_data_more_fields.
  - apply join_split.
Qed.

Lemma get_line_data_fields_witness :
  get_line_data "example.org A,MX"
  = Ret {| domain := "example.org"; records := ["A"; "MX"] |}.
Proof.
  apply (get_line_data_fields "example.org" "A,MX"); reflexivity.
Defined.

(** C9.  A line with two spaces after the domain is parsed without
    failure, its only record type the empty string, whatever follows the
    two spaces; and in every line whatever follows the second space is
    dropped: the line is parsed, without failure, as the line that ends
    before that space. *)
Theorem double_space_gives_empty_record_type (d rest : string) :
  Py.has_char " " d = false ->
  get_line_data (d ++ "  " ++ rest)
  = Ret {| domain := d; records := [EmptyString] |}
  /\ (forall f : string,
        Py.has_char " " f = false ->
        get_line_data (d ++ " " ++ f ++ " " ++ rest)
        = Ret {| domain := d; records := Py.split "," f |}
        /\ get_line_data (d ++ " " ++ f)
           = Ret {| domain := d; records := Py.split "," f |}).
Proof.
  intros Hd. split.
  - apply (get_line_data_more_fields d EmptyString rest Hd). reflexivity.
  - intros f Hf. split.
    + now apply get_line_data_more_fields.
    + now apply get_line_data_two_fields.
Qed.

Lemma double_space_gives_empty_record_type_witness :
  get_line_data "example.org  A"
  = Ret {| domain := "example.org"; records := [EmptyString] |}.
Proof.
  apply (double_space_gives_empty_record_type "example.org" "A").
  reflexivity.
Defined.

(** What [valid_lines] keeps: stripped lines that are not empty and do
    not start with [#]. *)
Lemma valid_lines_In (l : string) (input_file : list string) :
  In l (valid_lines input_file) <->
  (exists raw, Py.strip raw = l /\ In raw input_file)
  /\ l <> EmptyString /\ Py.startswith l "#" = false.
Proof.
  unfold valid_lines. rewrite filter_In, in_map_iff, andb_true_iff.
  rewrite !negb_true_iff.
  split; intros [H1 [H2 H3]]; (split; [exact H1|split]); try assumption.
  - intros ->. discriminate.
  - destruct l; [contradiction|reflexivity].
Qed.

(** The first loop of [parse_data] stops at the first line without a
    space. *)
Lemma parse_lines_first_bad (before after : list string) (l : string) :
  Forall (fun x => Py.has_char " " x = true) before ->
  Py.has_char " " l = false ->
  forall data, parse_lines (before ++ l :: after) data
               = Exit (Message.bad_line l).
Proof.
  intros Hb Hl. induction Hb as [|x before Hx Hb IH]; intros data; simpl.
  - now rewrite (get_line_data_without_space l Hl).
  - destruct (get_line_data_with_space x Hx) as [d ->]. simpl. apply IH.
Qed.

Lemma parse_lines_all_good (lines : list string) :
  Forall (fun x => Py.has_char " " x = true) lines ->
  forall data, exists parsed,
    parse_lines lines data = Ret (data ++ parsed)
    /\ length parsed = length lines.
Proof.
  intros H. induction H as [|x lines Hx H IH]; intros data; simpl.
  - exists []. now rewrite app_nil_r.
  - destruct (get_line_data_with_space x Hx) as [d ->]. simpl.
    destruct (IH (data ++ [d])) as (parsed & -> & Hlen).
    exists (d :: parsed). rewrite <- app_assoc. simpl. now rewrite Hlen.
Qed.

Lemma first_without_space (lines : list string) :
  (exists l, In l lines /\ Py.has_char " " l = false) ->
  exists before l after,
    lines = before ++ l :: after
    /\ Forall (fun x => Py.has_char " " x = true) before
    /\ Py.has_char " " l = false.
Proof.
  induction lines as [|x lines IH]; intros (l & Hin & Hl); [destruct Hin|].
  destruct (Py.has_char " " x) eqn:Hx.
  - destruct Hin as [-> | Hin]; [congruence|].
    destruct IH as (before & l0 & after & -> & Hb & Hl0); [eauto|].
    exists (x :: before), l0, after. repeat split; auto.
  - exists [], x, lines. repeat split; auto.
Qed.

(** ** The trace *)

Lemma queries_of_app (t1 t2 : trace) :
  queries_of (t1 ++ t2) = queries_of t1 ++ queries_of t2.
Proof.
  induction t1 as [|[ip|path|q|text] t1 IH]; simpl; try assumption.
  - reflexivity.
  - now rewrite IH.
Qed.

Lemma stdout_of_app (t1 t2 : trace) :
  stdout_of (t1 ++ t2) = stdout_of t1 ++ stdout_of t2.
Proof.
  induction t1 as [|[ip|path|q|text] t1 IH]; simpl; try assumption.
  - reflexivity.
  - now rewrite IH.
Qed.

(** ** The Input Validator and the Driver *)

Section Driver.

Variable w : world.
Variables primary_ns secondary_ns input_file : string.

Lemma validate_cases (t : trace) :
  validate w primary_ns secondary_ns input_file t
  = match ip_address w primary_ns with
    | None =>
        (t ++ [IpAddress primary_ns],
         Exit "Invalid IP for primary nameserver (-p flag)")
    | Some _ =>
        match ip_address w secondary_ns with
        | None =>
            (t ++ [IpAddress primary_ns; IpAddress secondary_ns],
             Exit "Invalid IP for secondary nameserver (-s flag)")
        | Some _ =>
            match file_lines w input_file with
            | None =>
                (t ++ [IpAddress primary_ns; IpAddress secondary_ns;
                       Open input_file],
                 Exit "Unable to access input file (-f flag)")
            | Some _ =>
                (t ++ [IpAddress primary_ns; IpAddress secondary_ns;
                       Open input_file],
                 Ret true)
            end
        end
    end.
Proof.
  unfold validate, valid_ip, accessible_file, bind, emit, ret, exit.
  destruct (ip_address w primary_ns); simpl; [|reflexivity].
  destruct (ip_address w secondary_ns); simpl;
    [|now rewrite <- app_assoc].
  destruct (file_lines w input_file); simpl;
    now rewrite <- !app_assoc.
Qed.

Lemma main_cases (quiet_mode : bool) (t : trace) :
  main w primary_ns secondary_ns input_file quiet_mode t
  = match ip_address w primary_ns with
    | None =>
        (t ++ [IpAddress primary_ns],
         Exit "Invalid IP for primary nameserver (-p flag)")
    | Some _ =>
        match ip_address w secondary_ns with
        | None =>
            (t ++ [IpAddress primary_ns; IpAddress secondary_ns],
             Exit "Invalid IP for secondary nameserver (-s flag)")
        | Some _ =>
            match file_lines w input_file with
            | None =>
                (t ++ [IpAddress primary_ns; IpAddress secondary_ns;
                       Open input_file],
                 Exit "Unable to access input file (-f flag)")
            | Some _ =>
                parse_data w primary_ns secondary_ns input_file quiet_mode
                  (t ++ [IpAddress primary_ns; IpAddress secondary_ns;
                         Open input_file])
            end
        end
    end.
Proof.
  unfold main, bind at 1. rewrite validate_cases.
  destruct (ip_address w primary_ns); [|reflexivity].
  destruct (ip_address w secondary_ns); [|reflexivity].
  destruct (file_lines w input_file); reflexivity.
Qed.

(** [parse_data] has two phases: every valid line is parsed, and only
    then is the first query made. *)
Lemma parse_data_phases
    (quiet_mode : bool) (lines : list string) (t : trace) :
  file_lines w input_file = Some lines ->
  parse_data w primary_ns secondary_ns input_file quiet_mode t
  = match parse_lines (valid_lines lines) [] with
    | Ret data =>
        for_each data (query_records w primary_ns secondary_ns quiet_mode)
                 (t ++ [Open input_file])
    | Exit msg => (t ++ [Open input_file], Exit msg)
    | Raise e => (t ++ [Open input_file], Raise e)
    end.
Proof.
  intros H. unfold parse_data, open, bind, emit, lift, ret. rewrite H.
  destruct (parse_lines (valid_lines lines) []); reflexivity.
Qed.

End Driver.

(** C10.  [validate] checks the primary address, then the secondary
    address, then the file, and stops at the first check that fails: the
    trace holds the checks made up to it and no later one, and the process
    exits with the message of that check alone.  [main] goes on to
    [parse_data] only when the three checks pass. *)
Theorem validate_stops_at_first_failure
    (w : world) (p s f : string) (quiet_mode : bool) (t : trace) :
  validate w p s f t
  = match ip_address w p, ip_address w s, file_lines w f with
    | None, _, _ =>
        (t ++ [IpAddress p],
         Exit "Invalid IP for primary nameserver (-p flag)")
    | Some _, None, _ =>
        (t ++ [IpAddress p; IpAddress s],
         Exit "Invalid IP for secondary nameserver (-s flag)")
    | Some _, Some _, None =>
        (t ++ [IpAddress p; IpAddress s; Open f],
         Exit "Unable to access input file (-f flag)")
    | Some _, Some _, Some _ =>
        (t ++ [IpAddress p; IpAddress s; Open f], Ret true)
    end
  /\ main w p s f quiet_mode t
     = match ip_address w p, ip_address w s, file_lines w f with
       | None, _, _ =>
           (t ++ [IpAddress p],
            Exit "Invalid IP for primary nameserver (-p flag)")
       | Some _, None, _ =>
           (t ++ [IpAddress p; IpAddress s],
            Exit "Invalid IP for secondary nameserver (-s flag)")
       | Some _, Some _, None =>
           (t ++ [IpAddress p; IpAddress s; Open f],
            Exit "Unable to access input file (-f flag)")
       | Some _, Some _, Some _ =>
           parse_data w p s f quiet_mode
             (t ++ [IpAddress p; IpAddress s; Open f])
       end.
Proof.
  rewrite validate_cases, main_cases.
  destruct (ip_address w p), (ip_address w s), (file_lines w f);
    split; reflexivity.
Qed.

Example invalid_primary_is_the_only_check :
  main Sample.agreeing "primary" "secondary" "missing.txt" false []
  = ([IpAddress "primary"],
     Exit "Invalid IP for primary nameserver (-p flag)").
Proof. reflexivity. Qed.

(** C6.  When a valid line of the input file has no space, [parse_data]
    exits with the message that shows the first such line, having opened
    the file and done nothing else; the whole run ends in an exit and
    not one query is made. *)
Theorem line_without_space_stops_before_any_query
    (w : world) (p s f : string) (quiet_mode : bool) (lines : list string) :
  file_lines w f = Some lines ->
  (exists l, In l (valid_lines lines) /\ Py.has_char " " l = false) ->
  (exists before l0 after,
      valid_lines lines = before ++ l0 :: after
      /\ Forall (fun x => Py.has_char " " x = true) before
      /\ Py.has_char " " l0 = false
      /\ forall t : trace,
           parse_data w p s f quiet_mode t
           = (t ++ [Open f], Exit (Message.bad_line l0)))
  /\ (exists msg, snd (main w p s f quiet_mode []) = Exit msg)
  /\ queries_of (fst (main w p s f quiet_mode [])) = [].
Proof.
  intros Hf Hbad.
  destruct (first_without_space _ Hbad) as (before & l0 & after & E & Hb & Hl).
  assert (forall t : trace,
             parse_data w p s f quiet_mode t
             = (t ++ [Open f], Exit (Message.bad_line l0))) as Hp.
  { intros t. rewrite (parse_data_phases w p s f quiet_mode lines t Hf), E.
    now rewrite (parse_lines_first_bad before after l0 Hb Hl). }
  split.
  - exists before, l0, after. repeat (split; [assumption|]). exact Hp.
  - rewrite main_cases, Hf.
    destruct (ip_address w p); [|split; [now eexists|reflexivity]].
    destruct (ip_address w s); [|split; [now eexists|reflexivity]].
    rewrite Hp. split; [now eexists|reflexivity].
Qed.

Lemma line_without_space_stops_before_any_query_witness :
  (exists msg,
      snd (main Sample.agreeing "208.67.222.222" "8.8.8.8" "broken.txt"
             false [])
      = Exit msg)
  /\ queries_of
       (fst (main Sample.agreeing "208.67.222.222" "8.8.8.8" "broken.txt"
               false []))
     = [].
Proof.
  apply (line_without_space_stops_before_any_query Sample.agreeing
           "208.67.222.222" "8.8.8.8" "broken.txt" false
           Sample.broken_lines).
  - reflexivity.
  - exists "example.com". split; [|reflexivity].
    simpl. right. left. reflexivity.
Defined.

Example broken_file_run :
  main Sample.agreeing "208.67.222.222" "8.8.8.8" "broken.txt" false []
  = ([IpAddress "208.67.222.222"; IpAddress "8.8.8.8";
      Open "broken.txt"; Open "broken.txt"],
     Exit (Message.bad_line "example.com")).
Proof. reflexivity. Qed.

(** ** A run in quiet mode against the same run without it *)

Lemma quiet_view_app (t1 t2 : trace) :
  quiet_view (t1 ++ t2) = quiet_view t1 ++ quiet_view t2.
Proof. apply filter_app. Qed.

Lemma queries_of_quiet_view (t : trace) :
  queries_of (quiet_view t) = queries_of t.
Proof.
  induction t as [|[ip|path|q|text] t IH]; simpl; try assumption.
  - reflexivity.
  - now rewrite IH.
  - destruct (negb (Py.startswith text Fore.GREEN)); simpl; assumption.
Qed.

Section QuietVersion.

Context {A B : Type}.

Lemma quiet_version_ret (a : A) : quiet_version (ret a) (ret a).
Proof. intros t. reflexivity. Qed.

Lemma quiet_version_lift (r : res A) : quiet_version (lift r) (lift r).
Proof. intros t. reflexivity. Qed.

Lemma quiet_version_bind (mq mn : M A) (kq kn : A -> M B) :
  quiet_version mq mn ->
  (forall a, quiet_version (kq a) (kn a)) ->
  quiet_version (bind mq kq) (bind mn kn).
Proof.
  intros Hm Hk t. unfold bind. rewrite (Hm t).
  destruct (mn t) as [t1 [a|msg|e]]; simpl; [apply Hk|reflexivity..].
Qed.

End QuietVersion.

Lemma quiet_version_for_each {A : Type} (xs : list A) (bq bn : A -> M unit) :
  (forall x, quiet_version (bq x) (bn x)) ->
  quiet_version (for_each xs bq) (for_each xs bn).
Proof.
  intros H. induction xs as [|x xs IH]; simpl.
  - apply quiet_version_ret.
  - apply quiet_version_bind; [apply H|intros _; exact IH].
Qed.

Lemma quiet_version_report (text : string) :
  quiet_version (report true text) (report false text).
Proof.
  intros t. unfold report, print, emit, ret. rewrite andb_true_r, andb_false_r.
  simpl. rewrite quiet_view_app. simpl.
  destruct (Py.startswith text Fore.GREEN); simpl;
    [now rewrite app_nil_r|reflexivity].
Qed.

Section QuietRun.

Variable w : world.

Lemma quiet_version_dns_query (ns d rt : string) :
  quiet_version (dns_query w ns d rt) (dns_query w ns d rt).
Proof.
  intros t. rewrite !dns_query_step, queries_of_quiet_view.
  destruct (resolve w (queries_of t) (Query ns d rt));
    simpl; now rewrite quiet_view_app.
Qed.

Lemma quiet_version_query_records (p s : string) (line : line_data) :
  quiet_version (query_records w p s true line)
                (query_records w p s false line).
Proof.
  unfold query_records. apply quiet_version_for_each. intros rt.
  apply quiet_version_bind; [apply quiet_version_dns_query|intros pr].
  apply quiet_version_bind; [apply quiet_version_dns_query|intros sr].
  apply quiet_version_bind; [apply quiet_version_lift|intros text].
  apply quiet_version_report.
Qed.

Lemma quiet_version_open (f : string) : quiet_version (open w f) (open w f).
Proof.
  intros t. unfold open, bind, emit, ret, lift.
  destruct (file_lines w f); simpl; now rewrite quiet_view_app.
Qed.

Lemma quiet_version_parse_data (p s f : string) :
  quiet_version (parse_data w p s f true) (parse_data w p s f false).
Proof.
  unfold parse_data.
  apply quiet_version_bind; [apply quiet_version_open|intros lines].
  apply quiet_version_bind; [apply quiet_version_lift|intros data].
  apply quiet_version_for_each. intros line.
  apply quiet_version_query_records.
Qed.

Lemma quiet_version_validate (p s f : string) :
  quiet_version (validate w p s f) (validate w p s f).
Proof.
  intros t. rewrite !validate_cases.
  destruct (ip_address w p), (ip_address w s), (file_lines w f);
    simpl; now rewrite quiet_view_app.
Qed.

Lemma quiet_version_main (p s f : string) :
  quiet_version (main w p s f true) (main w p s f false).
Proof.
  unfold main.
  apply quiet_version_bind; [apply quiet_version_validate|intros _].
  apply quiet_version_parse_data.
Qed.

End QuietRun.

Lemma stdout_of_quiet_view (t : trace) :
  stdout_of (quiet_view t)
  = filter (fun text => negb (Py.startswith text Fore.GREEN)) (stdout_of t).
Proof.
  induction t as [|[ip|path|q|text] t IH]; simpl; try assumption.
  - reflexivity.
  - destruct (negb (Py.startswith text Fore.GREEN)); simpl; now rewrite IH.
Qed.

(** A run in quiet mode makes the queries of the run without it, ends as
    it ends, and prints its lines except those that start in green. *)
Lemma quiet_run (w : world) (p s f : string) :
  let quiet := main w p s f true [] in
  let loud := main w p s f false [] in
  snd quiet = snd loud
  /\ queries_of (fst quiet) = queries_of (fst loud)
  /\ stdout_of (fst quiet)
     = filter (fun text => negb (Py.startswith text Fore.GREEN))
              (stdout_of (fst loud)).
Proof.
  intros quiet loud. subst quiet loud.
  pose proof (quiet_version_main w p s f []) as H. simpl in H. rewrite H.
  simpl. rewrite queries_of_quiet_view, stdout_of_quiet_view. auto.
Qed.

Example quiet_run_of_agreeing_servers :
  stdout_of (fst (main Sample.agreeing "208.67.222.222" "8.8.8.8"
                    "domains.txt" true []))
  = []
  /\ length (stdout_of (fst (main Sample.agreeing "208.67.222.222" "8.8.8.8"
                               "domains.txt" false [])))
     = 3.
Proof. split; reflexivity. Qed.


(** * More of the program *)

(** ** The order of the records: [sorted] *)

Lemma ascii_compare_lt (a b : ascii) :
  Ascii.compare a b = Lt <-> (N_of_ascii a < N_of_ascii b)%N.
Proof. unfold Ascii.compare. apply N.compare_lt_iff. Qed.

Lemma string_leb_trans (x y z : string) :
  String.leb x y = true -> String.leb y z = true -> String.leb x z = true.
Proof.
  unfold String.leb. revert y z.
  induction x as [|a x IH]; intros [|b y] [|c z]; simpl;
    try reflexivity; try discriminate.
  destruct (Ascii.compare a b) eqn:Hab.
  - apply Ascii.compare_eq_iff in Hab. subst b.
    destruct (Ascii.compare a c); try reflexivity; try discriminate.
    apply IH.
  - destruct (Ascii.compare b c) eqn:Hbc.
    + apply Ascii.compare_eq_iff in Hbc. subst c. now rewrite Hab.
    + apply ascii_compare_lt in Hab. apply ascii_compare_lt in Hbc.
      assert (Ascii.compare a c = Lt) as ->
        by (apply ascii_compare_lt; eapply N.lt_trans; eassumption).
      reflexivity.
    + discriminate.
  - discriminate.
Qed.

Lemma insert_sorted_pair (a b : string) (k : list string) :
  (if String.leb a b then a :: b :: k else b :: a :: k)
  = (if String.leb b a then b :: a :: k else a :: b :: k).
Proof.
  destruct (String.leb a b) eqn:Hab, (String.leb b a) eqn:Hba;
    try reflexivity.
  - now rewrite (String.leb_antisym a b Hab Hba).
  - destruct (String.leb_total a b); congruence.
Qed.

Lemma insert_sorted_swap (x y : string) (l : list string) :
  Py.insert_sorted x (Py.insert_sorted y l)
  = Py.insert_sorted y (Py.insert_sorted x l).
Proof.
  induction l as [|z l IH]; simpl.
  - apply insert_sorted_pair.
  - destruct (String.leb y z) eqn:Hyz, (String.leb x z) eqn:Hxz; simpl;
      rewrite Hyz, Hxz.
    + apply insert_sorted_pair.
    + destruct (String.leb x y) eqn:Hxy; [|reflexivity].
      rewrite (string_leb_trans x y z Hxy Hyz) in Hxz. discriminate.
    + destruct (String.leb y x) eqn:Hyx; [|reflexivity].
      rewrite (string_leb_trans y x z Hyx Hxz) in Hyz. discriminate.
    + now rewrite IH.
Qed.

Lemma insert_sorted_permutation (x : string) (l : list string) :
  Permutation (Py.insert_sorted x l) (x :: l).
Proof.
  induction l as [|y l IH]; simpl; [reflexivity|].
  destruct (String.leb x y); [reflexivity|].
  rewrite IH. apply perm_swap.
Qed.

Lemma sorted_permutation (l : list string) : Permutation (Py.sorted l) l.
Proof.
  induction l as [|x l IH]; simpl; [reflexivity|].
  rewrite insert_sorted_permutation. now apply perm_skip.
Qed.

Lemma insert_sorted_ascending (x : string) (l : list string) :
  LocallySorted (fun a b => String.leb a b = true) l ->
  LocallySorted (fun a b => String.leb a b = true) (Py.insert_sorted x l).
Proof.
  intros H. induction H as [|y|y z l H IH Hyz]; simpl.
  - constructor.
  - destruct (String.leb x y) eqn:Hxy.
    + now repeat constructor.
    + repeat constructor.
      destruct (String.leb_total x y); congruence.
  - destruct (String.leb x y) eqn:Hxy.
    + now repeat constructor.
    + simpl in IH. destruct (String.leb x z) eqn:Hxz.
      * constructor; [assumption|].
        destruct (String.leb_total x y); congruence.
      * now constructor.
Qed.

Lemma sorted_ascending (l : list string) :
  LocallySorted (fun a b => String.leb a b = true) (Py.sorted l).
Proof.
  induction l as [|x l IH]; simpl; [constructor|].
  now apply insert_sorted_ascending.
Qed.

Lemma sorted_of_permutation (l1 l2 : list string) :
  Permutation l1 l2 -> Py.sorted l1 = Py.sorted l2.
Proof.
  intros H. induction H as [|x l1 l2 H IH|x y l|l1 l2 l3 H1 IH1 H2 IH2];
    simpl.
  - reflexivity.
  - now rewrite IH.
  - apply insert_sorted_swap.
  - now rewrite IH1.
Qed.

Lemma contains_None_map_Some (l : list string) :
  contains_None (map Some l) = false.
Proof. induction l as [|x l IH]; simpl; [reflexivity|exact IH]. Qed.

Lemma map_Some_inj (l1 l2 : list string) :
  map Some l1 = map Some l2 -> l1 = l2.
Proof.
  revert l2. induction l1 as [|x l1 IH]; intros [|y l2] H;
    try discriminate; [reflexivity|].
  injection H as -> H. now rewrite (IH l2 H).
Qed.

(** X1.  When the resolver returns records, [dns_query] returns their
    texts, each as often as the resolver gave it, in ascending order, and
    records one query in the trace. *)
Theorem dns_query_returns_the_records_in_order
    (w : world) (ns d rt : string) (t : trace) (texts : list string) :
  resolve w (queries_of t) (Query ns d rt) = Records texts ->
  exists r : list string,
    dns_query w ns d rt t = (t ++ [Resolve (Query ns d rt)], Ret (map Some r))
    /\ Permutation r texts
    /\ LocallySorted (fun a b => String.leb a b = true) r.
Proof.
  intros H. exists (Py.sorted texts). rewrite dns_query_step, H.
  split; [reflexivity|].
  split; [apply sorted_permutation|apply sorted_ascending].
Qed.

Lemma dns_query_returns_the_records_in_order_witness :
  exists r : list string,
    dns_query Sample2.shuffled "8.8.8.8" "example.org" "A" []
    = ([Resolve (Query "8.8.8.8" "example.org" "A")], Ret (map Some r))
    /\ Permutation r ["93.184.216.34"; "10.0.0.1"; "172.16.0.9"]
    /\ LocallySorted (fun a b => String.leb a b = true) r.
Proof.
  apply (dns_query_returns_the_records_in_order Sample2.shuffled
           "8.8.8.8" "example.org" "A" []).
  reflexivity.
Defined.

Lemma report_not_green_or_loud (quiet_mode : bool) (text : string) (t : trace) :
  Py.startswith text Fore.GREEN = false \/ quiet_mode = false ->
  report quiet_mode text t = (t ++ [Print text], Ret tt).
Proof.
  intros [H | ->]; unfold report; [now rewrite H|].
  now rewrite andb_false_r.
Qed.

(** What [parse_data] does for one record type of one line when both
    nameservers return records. *)
Lemma query_records_one_pair
    (w : world) (p s d rt : string) (quiet_mode : bool) (t : trace)
    (l1 l2 : list string) :
  resolve w (queries_of t) (Query p d rt) = Records l1 ->
  resolve w (queries_of t ++ [Query p d rt]) (Query s d rt) = Records l2 ->
  query_records w p s quiet_mode {| domain := d; records := [rt] |} t
  = match compare_dns_response d rt (map Some (Py.sorted l1))
                               (map Some (Py.sorted l2)) with
    | Ret text =>
        let (t', r) :=
          report quiet_mode text
            (t ++ [Resolve (Query p d rt)] ++ [Resolve (Query s d rt)]) in
        (t', r)
    | Exit msg =>
        (t ++ [Resolve (Query p d rt)] ++ [Resolve (Query s d rt)], Exit msg)
    | Raise e =>
        (t ++ [Resolve (Query p d rt)] ++ [Resolve (Query s d rt)], Raise e)
    end.
Proof.
  intros H1 H2. unfold query_records. simpl. unfold bind at 1 2.
  rewrite dns_query_step, H1. unfold bind at 1.
  rewrite dns_query_step, queries_of_app. simpl. rewrite H2.
  unfold bind, lift, ret. rewrite <- app_assoc. simpl.
  destruct (compare_dns_response d rt _ _) as [text|msg|e]; try reflexivity.
  destruct (report quiet_mode text _) as [t' [[]|msg|e]]; reflexivity.
Qed.

(** X2.  The order in which a nameserver lists its records does not
    matter: when both nameservers return records, the pair is reported as
    a Success exactly when the two answers hold the same texts the same
    number of times, and as an Error otherwise. *)
Theorem record_order_does_not_matter
    (w : world) (p s d rt : string) (t : trace) (l1 l2 : list string) :
  resolve w (queries_of t) (Query p d rt) = Records l1 ->
  resolve w (queries_of t ++ [Query p d rt]) (Query s d rt) = Records l2 ->
  (Permutation l1 l2 ->
   query_records w p s false {| domain := d; records := [rt] |} t
   = (t ++ [Resolve (Query p d rt); Resolve (Query s d rt);
            Print (Message.success d rt
                     (listing (map Some (Py.sorted l1))))],
      Ret tt))
  /\ (~ Permutation l1 l2 ->
      query_records w p s false {| domain := d; records := [rt] |} t
      = (t ++ [Resolve (Query p d rt); Resolve (Query s d rt);
               Print (Message.error d rt
                        (listing (map Some (Py.sorted l1)))
                        (listing (map Some (Py.sorted l2))))],
         Ret tt)).
Proof.
  intros H1 H2.
  rewrite (query_records_one_pair w p s d rt false t l1 l2 H1 H2).
  split; intros H.
  - rewrite <- (sorted_of_permutation l1 l2 H).
    rewrite compare_equal by apply contains_None_map_Some.
    rewrite report_not_green_or_loud by now right.
    now rewrite <- app_assoc.
  - rewrite compare_different; try apply contains_None_map_Some.
    + rewrite report_not_green_or_loud by now right.
      now rewrite <- app_assoc.
    + intros E. apply map_Some_inj in E. apply H.
      rewrite <- (sorted_permutation l1), E. apply sorted_permutation.
Qed.

Lemma record_order_does_not_matter_witness :
  query_records Sample2.shuffled "208.67.222.222" "8.8.8.8" false
    {| domain := "example.org"; records := ["A"] |} []
  = ([] ++ [Resolve (Query "208.67.222.222" "example.org" "A");
            Resolve (Query "8.8.8.8" "example.org" "A");
            Print (Message.success "example.org" "A"
                     (listing (map Some
                        (Py.sorted
                           ["172.16.0.9"; "93.184.216.34"; "10.0.0.1"]))))],
     Ret tt).
Proof.
  apply (record_order_does_not_matter Sample2.shuffled
           "208.67.222.222" "8.8.8.8" "example.org" "A" []
           ["172.16.0.9"; "93.184.216.34"; "10.0.0.1"]
           ["93.184.216.34"; "10.0.0.1"; "172.16.0.9"]).
  - reflexivity.
  - reflexivity.
  - apply (Permutation_cons_append ["93.184.216.34"; "10.0.0.1"] "172.16.0.9").
Defined.

(** ** What a run never prints *)

Section Keeps.

Context {A B : Type}.
Variable Inv : trace -> Prop.

Lemma keeps_ret (a : A) (Q : A -> Prop) : Q a -> keeps Inv (ret a) Q.
Proof.
  intros H t Ht. split; [exact Ht|].
  intros a' E. injection E as <-. exact H.
Qed.

Lemma keeps_lift (r : res A) (Q : A -> Prop) :
  (forall a, r = Ret a -> Q a) -> keeps Inv (lift r) Q.
Proof. intros H t Ht. split; [exact Ht|exact H]. Qed.

Lemma keeps_exit (msg : string) (Q : A -> Prop) : keeps Inv (exit msg) Q.
Proof. intros t Ht. split; [exact Ht|discriminate]. Qed.

Lemma keeps_bind (m : M A) (k : A -> M B) (Q : A -> Prop) (R : B -> Prop) :
  keeps Inv m Q -> (forall a, Q a -> keeps Inv (k a) R) ->
  keeps Inv (bind m k) R.
Proof.
  intros Hm Hk t Ht. unfold bind. destruct (Hm t Ht) as [H1 H2].
  destruct (m t) as [t1 [a|msg|e]]; simpl in *.
  - apply (Hk a (H2 a eq_refl) t1 H1).
  - split; [exact H1|discriminate].
  - split; [exact H1|discriminate].
Qed.

End Keeps.

Lemma keeps_for_each {A : Type} (Inv : trace -> Prop)
    (xs : list A) (body : A -> M unit) :
  (forall x, keeps Inv (body x) (fun _ => True)) ->
  keeps Inv (for_each xs body) (fun _ => True).
Proof.
  intros H. induction xs as [|x xs IH]; simpl.
  - now apply keeps_ret.
  - eapply keeps_bind; [apply H|intros _ _; exact IH].
Qed.

Lemma only_success_or_error_app (t1 t2 : trace) :
  only_success_or_error (t1 ++ t2)
  <-> only_success_or_error t1 /\ only_success_or_error t2.
Proof.
  unfold only_success_or_error. rewrite stdout_of_app. apply Forall_app.
Qed.

(** X3.  For a nameserver that [validate] has accepted, as is every
    nameserver [main] passes on, [dns_query] calls the resolver exactly
    once, prints nothing, and never returns a response that holds
    [None], whatever the resolver answers. *)
Theorem dns_query_never_returns_None
    (w : world) (ns d rt : string) (t : trace) (a : address w) :
  ip_address w ns = Some a ->
  fst (dns_query w ns d rt t) = t ++ [Resolve (Query ns d rt)]
  /\ stdout_of (fst (dns_query w ns d rt t)) = stdout_of t
  /\ forall r : response,
       snd (dns_query w ns d rt t) = Ret r -> contains_None r = false.
Proof.
  intros _. rewrite dns_query_step.
  destruct (resolve w (queries_of t) (Query ns d rt)); simpl;
    rewrite stdout_of_app, app_nil_r;
    (split; [reflexivity|split; [reflexivity|]]);
    intros r E; try discriminate; injection E as <-;
    [apply contains_None_map_Some|reflexivity..].
Qed.

Lemma dns_query_never_returns_None_witness :
  fst (dns_query Sample.slow_secondary "8.8.8.8" "example.org" "A" [])
  = [] ++ [Resolve (Query "8.8.8.8" "example.org" "A")]
  /\ stdout_of
       (fst (dns_query Sample.slow_secondary "8.8.8.8" "example.org" "A" []))
     = stdout_of []
  /\ forall r : response,
       snd (dns_query Sample.slow_secondary "8.8.8.8" "example.org" "A" [])
       = Ret r ->
       contains_None r = false.
Proof.
  apply (dns_query_never_returns_None Sample.slow_secondary
           "8.8.8.8" "example.org" "A" [] tt).
  reflexivity.
Defined.

Section NoWarning.

Variable w : world.

Lemma keeps_dns_query (ns d rt : string) :
  keeps only_success_or_error (dns_query w ns d rt)
        (fun r => contains_None r = false).
Proof.
  intros t Ht. rewrite dns_query_step.
  destruct (resolve w (queries_of t) (Query ns d rt)); simpl;
    (split; [apply only_success_or_error_app; split; [exact Ht|constructor]|]);
    intros r E; try discriminate; injection E as <-;
    [apply contains_None_map_Some|reflexivity..].
Qed.

Lemma keeps_report (quiet_mode : bool) (text : string) :
  success_or_error text ->
  keeps only_success_or_error (report quiet_mode text) (fun _ => True).
Proof.
  intros H t Ht. split; [|trivial]. unfold report.
  destruct (Py.startswith text Fore.GREEN && quiet_mode); [exact Ht|].
  simpl. apply only_success_or_error_app. split; [exact Ht|].
  unfold only_success_or_error. simpl. constructor; [exact H|constructor].
Qed.

Lemma keeps_query_records (p s : string) (quiet_mode : bool)
    (line : line_data) :
  keeps only_success_or_error (query_records w p s quiet_mode line)
        (fun _ => True).
Proof.
  unfold query_records. apply keeps_for_each. intros rt.
  eapply keeps_bind; [apply keeps_dns_query|intros pr Hp].
  eapply keeps_bind; [apply keeps_dns_query|intros sr Hs].
  eapply keeps_bind with (Q := success_or_error).
  - apply keeps_lift. intros text E.
    unfold compare_dns_response in E. rewrite Hp, Hs in E. simpl in E.
    destruct (response_eqb pr sr).
    + rewrite format_success in E. injection E as <-. now left.
    + rewrite format_error in E. injection E as <-. now right.
  - intros text H. now apply keeps_report.
Qed.

Lemma keeps_main (p s f : string) (quiet_mode : bool) :
  keeps only_success_or_error (main w p s f quiet_mode) (fun _ => True).
Proof.
  intros t Ht. split; [|trivial]. rewrite main_cases.
  destruct (ip_address w p);
    [|apply only_success_or_error_app; split; [exact Ht|constructor]].
  destruct (ip_address w s);
    [|apply only_success_or_error_app; split; [exact Ht|constructor]].
  destruct (file_lines w f) as [lines|] eqn:Hf;
    [|apply only_success_or_error_app; split; [exact Ht|constructor]].
  rewrite (parse_data_phases w p s f quiet_mode lines _ Hf).
  assert (only_success_or_error
            ((t ++ [IpAddress p; IpAddress s; Open f]) ++ [Open f])) as Ht'.
  { apply only_success_or_error_app. split; [|constructor].
    apply only_success_or_error_app. split; [exact Ht|constructor]. }
  destruct (parse_lines (valid_lines lines) []) as [data|msg|e];
    try exact Ht'.
  apply (keeps_for_each only_success_or_error data
           (query_records w p s quiet_mode)
           (keeps_query_records p s quiet_mode) _ Ht').
Qed.

End NoWarning.

(** X4.  No run prints a Warning report, or anything but Success and
    Error reports: whatever the world and the arguments, every line a run
    of [main] prints is a Success report or an Error report. *)
Theorem a_run_prints_only_success_and_error
    (w : world) (p s f : string) (quiet_mode : bool) (text : string) :
  In text (stdout_of (fst (main w p s f quiet_mode []))) ->
  outcome_of text = Some Success \/ outcome_of text = Some Error.
Proof.
  intros H.
  destruct (keeps_main w p s f quiet_mode []) as [Hall _]; [constructor|].
  unfold only_success_or_error in Hall. rewrite Forall_forall in Hall.
  apply (Hall text H).
Qed.

Lemma a_run_prints_only_success_and_error_witness :
  outcome_of (Message.success "example.org" "A" "93.184.216.34")
  = Some Success
  \/ outcome_of (Message.success "example.org" "A" "93.184.216.34")
     = Some Error.
Proof.
  apply (a_run_prints_only_success_and_error Sample.agreeing
           "208.67.222.222" "8.8.8.8" "domains.txt" false).
  vm_compute. left. reflexivity.
Defined.

(** ** More on the Line Parser *)

Lemma split_pieces_without_sep (sep : ascii) (s : string) :
  Forall (fun piece => Py.has_char sep piece = false) (Py.split sep s).
Proof.
  induction s as [|c s IH]; simpl.
  - repeat constructor.
  - destruct (Ascii.eqb c sep) eqn:Hc.
    + constructor; [reflexivity|exact IH].
    + destruct (Py.split sep s) as [|x xs].
      * constructor; [simpl; now rewrite Hc|constructor].
      * inversion IH as [|? ? Hx Hxs]; subst.
        constructor; [simpl; now rewrite Hc, Hx|exact Hxs].
Qed.

Lemma split_pieces_without_char (c sep : ascii) (s : string) :
  Py.has_char c s = false ->
  Forall (fun piece => Py.has_char c piece = false) (Py.split sep s).
Proof.
  induction s as [|a s IH]; simpl; intros H.
  - repeat constructor.
  - apply orb_false_elim in H as [Ha Hs]. specialize (IH Hs).
    destruct (Ascii.eqb a sep).
    + constructor; [reflexivity|exact IH].
    + destruct (Py.split sep s) as [|x xs].
      * constructor; [simpl; now rewrite Ha|constructor].
      * inversion IH as [|? ? Hx Hxs]; subst.
        constructor; [simpl; now rewrite Ha, Hx|exact Hxs].
Qed.

(** What a line that parses gives. *)
Lemma get_line_data_returns (line : string) (d : line_data) :
  get_line_data line = Ret d ->
  Py.has_char " " line = true
  /\ Py.has_char " " (domain d) = false
  /\ (exists rest, line = (domain d ++ " " ++ rest)%string)
  /\ records d <> []
  /\ Forall (fun r => Py.has_char "," r = false /\ Py.has_char " " r = false)
            (records d).
Proof.
  intros E. destruct (Py.has_char " " line) eqn:Hl.
  - split; [reflexivity|].
    destruct (has_char_decompose " " line Hl) as (a & b & -> & Ha).
    rewrite (get_line_data_at_space a b Ha) in E. injection E as <-. simpl.
    split; [exact Ha|]. split; [now exists b|].
    split; [apply split_not_nil|].
    assert (Py.has_char " " (hd EmptyString (Py.split " " b)) = false) as Hf.
    { pose proof (split_pieces_without_sep " " b) as Hp.
      destruct (Py.split " " b); [reflexivity|].
      now inversion Hp. }
    pose proof (split_pieces_without_sep ","
                  (hd EmptyString (Py.split " " b))) as H1.
    pose proof (split_pieces_without_char " " ","
                  (hd EmptyString (Py.split " " b)) Hf) as H2.
    rewrite Forall_forall in *. intros r Hr. split; auto.
  - rewrite (get_line_data_without_space line Hl) in E. discriminate.
Qed.

(** X5.  [get_line_data] never raises.  It exits, showing the line,
    exactly when the line has no space.  Otherwise it returns: the domain
    is the text before the first space of the line, so it has no space
    itself; there is at least one record type; and no record type holds a
    comma or a space. *)
Theorem get_line_data_outcomes (line : string) :
  (Py.has_char " " line = false
   /\ get_line_data line = Exit (Message.bad_line line))
  \/ (Py.has_char " " line = true
      /\ exists d : line_data,
           get_line_data line = Ret d
           /\ Py.has_char " " (domain d) = false
           /\ (exists rest, line = (domain d ++ " " ++ rest)%string)
           /\ records d <> []
           /\ Forall (fun r => Py.has_char "," r = false
                               /\ Py.has_char " " r = false)
                     (records d)).
Proof.
  destruct (Py.has_char " " line) eqn:Hl.
  - right. split; [reflexivity|].
    destruct (get_line_data_with_space line Hl) as [d E].
    exists d. split; [exact E|].
    now destruct (get_line_data_returns line d E) as (_ & H).
  - left. split; [reflexivity|now apply get_line_data_without_space].
Qed.

(** ** What [valid_lines] keeps *)

Lemma lstrip_first (s : string) :
  is_space_opt (first_char (Py.lstrip s)) = false.
Proof.
  induction s as [|c s IH]; simpl; [reflexivity|].
  destruct (Py.is_space c) eqn:Hc; [exact IH|exact Hc].
Qed.

Lemma rstrip_first (s : string) :
  is_space_opt (first_char s) = false ->
  is_space_opt (first_char (Py.rstrip s)) = false.
Proof.
  destruct s as [|c s]; simpl; intros H; [reflexivity|].
  rewrite H. cbn [andb first_char is_space_opt]. exact H.
Qed.

Lemma rstrip_last (s : string) :
  is_space_opt (last_char (Py.rstrip s)) = false.
Proof.
  induction s as [|c s IH]; simpl; [reflexivity|].
  destruct (Py.rstrip s) as [|c' r] eqn:Hr; simpl in *.
  - rewrite andb_true_r. destruct (Py.is_space c) eqn:Hc; simpl;
      [reflexivity|exact Hc].
  - rewrite andb_false_r. exact IH.
Qed.

Lemma strip_ends (s : string) :
  is_space_opt (first_char (Py.strip s)) = false
  /\ is_space_opt (last_char (Py.strip s)) = false.
Proof.
  unfold Py.strip. split.
  - apply rstrip_first, lstrip_first.
  - apply rstrip_last.
Qed.

(** X6.  Every line [valid_lines] yields is a line of the file with the
    white space stripped from both ends: it is not empty, it neither
    starts nor ends with white space, and it does not start with [#]. *)
Theorem valid_lines_are_stripped (l : string) (input_file : list string) :
  In l (valid_lines input_file) ->
  (exists raw, In raw input_file /\ Py.strip raw = l)
  /\ l <> EmptyString
  /\ is_space_opt (first_char l) = false
  /\ is_space_opt (last_char l) = false
  /\ first_char l <> Some "#"%char.
Proof.
  intros H. apply valid_lines_In in H as ((raw & <- & Hraw) & Hne & Hc).
  split; [now exists raw|]. split; [exact Hne|].
  split; [apply strip_ends|]. split; [apply strip_ends|].
  intros E. destruct (Py.strip raw) as [|c r]; [discriminate E|].
  injection E as ->. destruct r; discriminate Hc.
Qed.

Lemma valid_lines_are_stripped_witness :
  (exists raw, In raw Sample.lines /\ Py.strip raw = "example.com  TXT")
  /\ "example.com  TXT" <> EmptyString
  /\ is_space_opt (first_char "example.com  TXT") = false
  /\ is_space_opt (last_char "example.com  TXT") = false
  /\ first_char "example.com  TXT" <> Some "#"%char.
Proof.
  apply (valid_lines_are_stripped "example.com  TXT" Sample.lines).
  simpl. right. left. reflexivity.
Defined.

(** X7.  A valid line that parses gives a domain that is not empty and
    does not start with [#]. *)
Theorem valid_line_has_a_domain
    (l : string) (input_file : list string) (d : line_data) :
  In l (valid_lines input_file) ->
  get_line_data l = Ret d ->
  domain d <> EmptyString /\ first_char (domain d) <> Some "#"%char.
Proof.
  intros Hin E.
  apply valid_lines_In in Hin as ((raw & <- & Hraw) & Hne & Hc).
  destruct (get_line_data_returns _ d E) as (_ & _ & (rest & Hl) & _).
  pose proof (strip_ends raw) as [Hfirst _].
  rewrite Hl in Hfirst, Hc. destruct (domain d) as [|c dom].
  - discriminate Hfirst.
  - split; [discriminate|]. intros E'. injection E' as ->.
    destruct dom; discriminate Hc.
Qed.

Lemma valid_line_has_a_domain_witness :
  domain {| domain := "example.org"; records := ["A"; "MX"] |}
  <> EmptyString
  /\ first_char
       (domain {| domain := "example.org"; records := ["A"; "MX"] |})
     <> Some "#"%char.
Proof.
  apply (valid_line_has_a_domain "example.org A,MX" Sample.lines).
  - simpl. left. reflexivity.
  - reflexivity.
Defined.

(** ** The first loop of [parse_data] *)

Lemma parse_lines_returns (lines : list string) :
  forall acc r,
    parse_lines lines acc = Ret r ->
    Forall (fun l => Py.has_char " " l = true) lines
    /\ exists data,
         r = acc ++ data /\ map Ret data = map get_line_data lines.
Proof.
  induction lines as [|l lines IH]; simpl; intros acc r E.
  - injection E as <-. split; [constructor|].
    exists []. now rewrite app_nil_r.
  - destruct (get_line_data l) as [d|msg|e] eqn:El; simpl in E;
      try discriminate.
    destruct (IH _ _ E) as (Hall & data & -> & Hmap).
    destruct (get_line_data_returns l d El) as (Hl & _).
    split; [now constructor|].
    exists (d :: data). rewrite <- app_assoc. simpl. now rewrite Hmap.
Qed.

Lemma parse_lines_of_good_lines (lines : list string) :
  Forall (fun l => Py.has_char " " l = true) lines ->
  forall acc, exists data,
    parse_lines lines acc = Ret (acc ++ data)
    /\ map Ret data = map get_line_data lines.
Proof.
  intros H. induction H as [|l lines Hl H IH]; intros acc; simpl.
  - exists []. now rewrite app_nil_r.
  - destruct (get_line_data_with_space l Hl) as [d E]. rewrite E. simpl.
    destruct (IH (acc ++ [d])) as (data & -> & Hmap).
    exists (d :: data). rewrite <- app_assoc. simpl. now rewrite Hmap.
Qed.

(** X8.  The first loop of [parse_data] returns exactly when every line
    it is given has a space, and then it has appended to [data] the
    result of [get_line_data] for every line, in the order of the lines. *)
Theorem parse_lines_parses_every_line
    (lines : list string) (acc r : list line_data) :
  parse_lines lines acc = Ret r
  <-> Forall (fun l => Py.has_char " " l = true) lines
      /\ exists data,
           r = acc ++ data /\ map Ret data = map get_line_data lines.
Proof.
  split.
  - apply parse_lines_returns.
  - intros (Hall & data & -> & Hmap).
    destruct (parse_lines_of_good_lines lines Hall acc) as (data' & E & Hmap').
    rewrite E. do 2 f_equal.
    rewrite <- Hmap in Hmap'. clear - Hmap'.
    revert data Hmap'. induction data' as [|x xs IH]; intros [|y ys] H;
      try discriminate; [reflexivity|].
    injection H as -> H. now rewrite (IH ys H).
Qed.

(** ** Comment lines and blank lines *)

Lemma valid_lines_app (a b : list string) :
  valid_lines (a ++ b) = valid_lines a ++ valid_lines b.
Proof. unfold valid_lines. now rewrite map_app, filter_app. Qed.

Lemma valid_lines_skips (a b : list string) (c : string) :
  Py.is_empty (Py.strip c) || Py.startswith (Py.strip c) "#" = true ->
  valid_lines (a ++ c :: b) = valid_lines (a ++ b).
Proof.
  intros H. rewrite !valid_lines_app. f_equal.
  unfold valid_lines. simpl.
  apply orb_true_iff in H as [-> | ->]; simpl;
    [reflexivity|now rewrite andb_false_r].
Qed.

Section SameAnswers.

Variables w1 w2 : world.
Hypothesis Hsame : same_answers w1 w2.

Lemma dns_query_same (ns d rt : string) (t : trace) :
  dns_query w1 ns d rt t = dns_query w2 ns d rt t.
Proof. rewrite !dns_query_step, Hsame. reflexivity. Qed.

Lemma for_each_same {A : Type} (xs : list A) (b1 b2 : A -> M unit) :
  (forall x t, b1 x t = b2 x t) ->
  forall t, for_each xs b1 t = for_each xs b2 t.
Proof.
  intros H. induction xs as [|x xs IH]; intros t; simpl; [reflexivity|].
  unfold bind. rewrite H.
  destruct (b2 x t) as [t' [[]|msg|e]]; [apply IH|reflexivity..].
Qed.

Lemma query_records_same (p s : string) (quiet_mode : bool)
    (line : line_data) (t : trace) :
  query_records w1 p s quiet_mode line t
  = query_records w2 p s quiet_mode line t.
Proof.
  unfold query_records. apply for_each_same. clear t. intros rt t.
  unfold bind. rewrite dns_query_same.
  destruct (dns_query w2 p (domain line) rt t) as [t1 [pr|msg|e]];
    try reflexivity.
  rewrite dns_query_same. reflexivity.
Qed.

End SameAnswers.

(** X9.  A blank line or a comment line, white space before the [#]
    allowed, changes nothing: two files that differ by such a line, read
    with resolvers that answer alike, give [parse_data] the same queries,
    the same output and the same end. *)
Theorem comment_line_changes_nothing
    (w1 w2 : world) (p s f : string) (quiet_mode : bool)
    (a b : list string) (c : string) (t : trace) :
  same_answers w1 w2 ->
  file_lines w1 f = Some (a ++ b) ->
  file_lines w2 f = Some (a ++ c :: b) ->
  Py.is_empty (Py.strip c) || Py.startswith (Py.strip c) "#" = true ->
  parse_data w2 p s f quiet_mode t = parse_data w1 p s f quiet_mode t.
Proof.
  intros Hsame H1 H2 Hc.
  rewrite (parse_data_phases w1 p s f quiet_mode _ t H1).
  rewrite (parse_data_phases w2 p s f quiet_mode _ t H2).
  rewrite (valid_lines_skips a b c Hc).
  destruct (parse_lines (valid_lines (a ++ b)) []); try reflexivity.
  apply for_each_same. intros line t'. symmetry.
  now apply query_records_same.
Qed.

Lemma comment_line_changes_nothing_witness :
  parse_data Sample2.commented "208.67.222.222" "8.8.8.8" "domains.txt"
    false []
  = parse_data Sample.agreeing "208.67.222.222" "8.8.8.8" "domains.txt"
      false [].
Proof.
  apply (comment_line_changes_nothing Sample.agreeing Sample2.commented
           "208.67.222.222" "8.8.8.8" "domains.txt" false
           [("# domains to compare" ++ Py.nl)%string;
            ("example.org A,MX" ++ Py.nl)%string]
           [Py.nl; ("example.com  TXT" ++ Py.nl)%string]
           ("   # the next one has two spaces" ++ Py.nl)%string []).
  - intros h q. reflexivity.
  - reflexivity.
  - reflexivity.
  - reflexivity.
Defined.

(** ** A run that nothing stops *)

Lemma for_each_cons {A : Type} (x : A) (xs : list A) (body : A -> M unit)
    (t : trace) :
  for_each (x :: xs) body t
  = match for_each [x] body t with
    | (t', Ret _) => for_each xs body t'
    | (t', Exit msg) => (t', Exit msg)
    | (t', Raise e) => (t', Raise e)
    end.
Proof.
  simpl. unfold bind, ret.
  destruct (body x t) as [t' [[]|msg|e]]; reflexivity.
Qed.

Lemma for_each_app {A : Type} (xs ys : list A) (body : A -> M unit)
    (t : trace) :
  for_each (xs ++ ys) body t
  = match for_each xs body t with
    | (t', Ret _) => for_each ys body t'
    | (t', Exit msg) => (t', Exit msg)
    | (t', Raise e) => (t', Raise e)
    end.
Proof.
  revert t. induction xs as [|x xs IH]; intros t; [reflexivity|].
  simpl. unfold bind.
  destruct (body x t) as [t' [[]|msg|e]]; [apply IH|reflexivity..].
Qed.

Section UnstoppedRun.

Variable w : world.
Variables p s : string.
Variable quiet_mode : bool.
Hypothesis Hret : forall h q, returns_response (resolve w h q) = true.

Lemma dns_query_returns (ns d rt : string) (t : trace) :
  exists r, dns_query w ns d rt t = (t ++ [Resolve (Query ns d rt)], Ret r).
Proof.
  rewrite dns_query_step.
  pose proof (Hret (queries_of t) (Query ns d rt)) as H.
  destruct (resolve w (queries_of t) (Query ns d rt));
    try discriminate; eauto.
Qed.

Lemma unstopped_pair (d rt : string) (t : trace) :
  exists text,
    query_records w p s quiet_mode {| domain := d; records := [rt] |} t
    = (t ++ [Resolve (Query p d rt); Resolve (Query s d rt)]
         ++ (if Py.startswith text Fore.GREEN && quiet_mode then []
             else [Print text]),
       Ret tt).
Proof.
  destruct (dns_query_returns p d rt t) as [pr Ep].
  destruct (dns_query_returns s d rt (t ++ [Resolve (Query p d rt)]))
    as [sr Es].
  destruct (compare_returns d rt pr sr) as (text & o & Ec & _).
  exists text. unfold query_records. simpl. unfold bind at 1 2. rewrite Ep.
  unfold bind at 1. rewrite Es. unfold bind, lift, ret. rewrite Ec.
  unfold report, print, emit, ret.
  destruct (Py.startswith text Fore.GREEN && quiet_mode);
    rewrite <- ?app_assoc; simpl; rewrite ?app_nil_r; reflexivity.
Qed.

Lemma unstopped_line (d : string) (rts : list string) (t : trace) :
  exists t',
    query_records w p s quiet_mode {| domain := d; records := rts |} t
    = (t', Ret tt)
    /\ queries_of t'
       = queries_of t
         ++ queries_for p s {| domain := d; records := rts |}
    /\ (quiet_mode = false ->
        length (stdout_of t') = length (stdout_of t) + length rts).
Proof.
  revert t. induction rts as [|rt rts IH]; intros t.
  - exists t. unfold queries_for. simpl. rewrite app_nil_r.
    split; [reflexivity|]. split; [reflexivity|]. intros _. lia.
  - destruct (unstopped_pair d rt t) as [text E].
    unfold query_records in *. cbn [domain records] in *.
    rewrite for_each_cons, E.
    destruct (IH (t ++ [Resolve (Query p d rt); Resolve (Query s d rt)]
                    ++ (if Py.startswith text Fore.GREEN && quiet_mode
                        then [] else [Print text])))
      as (t' & -> & Hq & Hout).
    exists t'. split; [reflexivity|]. split.
    + rewrite Hq, queries_of_app. unfold queries_for. simpl.
      rewrite <- app_assoc. f_equal.
      destruct (Py.startswith text Fore.GREEN && quiet_mode); reflexivity.
    + intros ->. rewrite (Hout eq_refl), andb_false_r, stdout_of_app.
      simpl. rewrite length_app. simpl. lia.
Qed.

Lemma unstopped_lines (data : list line_data) (t : trace) :
  exists t',
    for_each data (query_records w p s quiet_mode) t = (t', Ret tt)
    /\ queries_of t' = queries_of t ++ queries_for_all p s data
    /\ (quiet_mode = false ->
        length (stdout_of t') = length (stdout_of t) + pairs data).
Proof.
  revert t. induction data as [|[d rts] data IH]; intros t.
  - exists t. unfold queries_for_all, pairs. simpl. rewrite app_nil_r.
    split; [reflexivity|]. split; [reflexivity|]. intros _. lia.
  - destruct (unstopped_line d rts t) as (t1 & E1 & Hq1 & Hout1).
    destruct (IH t1) as (t' & E & Hq & Hout).
    exists t'. simpl. unfold bind. rewrite E1. split; [exact E|]. split.
    + rewrite Hq, Hq1. unfold queries_for_all. simpl.
      now rewrite <- app_assoc.
    + intros Hquiet. rewrite (Hout Hquiet), (Hout1 Hquiet).
      unfold pairs. simpl. lia.
Qed.

End UnstoppedRun.

(** ** Record types the resolver refuses *)

(** X11.  When the resolver does not know the record type of the first
    query for a line, or refuses it as a meta query, the process exits at
    that query with the message for the case: the secondary nameserver is
    not asked, nothing is printed, and the other record types of the line
    are not queried. *)
Theorem refused_record_type_ends_the_run
    (w : world) (p s d rt : string) (rest : list string)
    (quiet_mode : bool) (t : trace) :
  (resolve w (queries_of t) (Query p d rt) = UnknownRdatatype ->
   query_records w p s quiet_mode {| domain := d; records := rt :: rest |} t
   = (t ++ [Resolve (Query p d rt)],
      Exit (Fore.RED ++ d ++ " contains invalid DNS record type: " ++ rt
            ++ Py.nl ++ "Exiting.")%string))
  /\ (resolve w (queries_of t) (Query p d rt) = NoMetaqueries ->
      query_records w p s quiet_mode
        {| domain := d; records := rt :: rest |} t
      = (t ++ [Resolve (Query p d rt)],
         Exit (Fore.RED ++ "You used an invalid query type. Probably ANY, "
               ++ "which is not supported. Exiting." ++ Py.nl)%string)).
Proof.
  split; intros H; unfold query_records; simpl; unfold bind at 1 2;
    rewrite dns_query_step, H; reflexivity.
Qed.

Lemma refused_record_type_ends_the_run_witness :
  query_records Sample2.strict "208.67.222.222" "8.8.8.8" false
    {| domain := "example.org"; records := ["BOGUS"; "A"] |} []
  = ([] ++ [Resolve (Query "208.67.222.222" "example.org" "BOGUS")],
     Exit (Fore.RED ++ "example.org"
           ++ " contains invalid DNS record type: " ++ "BOGUS"
           ++ Py.nl ++ "Exiting.")%string).
Proof.
  apply (refused_record_type_ends_the_run Sample2.strict
           "208.67.222.222" "8.8.8.8" "example.org" "BOGUS" ["A"] false []).
  reflexivity.
Defined.

(** ** The Comparator, all cases *)

(** X12.  [compare_dns_response] never raises and never exits: it returns
    a report, and the report is the Warning exactly when a response holds
    [None], the Success exactly when none does and the two are equal, the
    Error exactly when none does and they differ. *)
Theorem compare_always_reports (d rt : string) (p s : response) :
  exists text : string,
    compare_dns_response d rt p s = Ret text
    /\ (outcome_of text = Some Warning <-> In None p \/ In None s)
    /\ (outcome_of text = Some Success
        <-> ~ In None p /\ ~ In None s /\ p = s)
    /\ (outcome_of text = Some Error
        <-> ~ In None p /\ ~ In None s /\ p <> s).
Proof.
  destruct (contains_None p || contains_None s) eqn:Hn.
  - exists (Message.warning d rt (listing p) (listing s)).
    split; [now apply compare_with_None|]. rewrite outcome_of_warning.
    assert (In None p \/ In None s) as Hin.
    { apply orb_true_iff in Hn as [H | H]; [left | right];
        now apply contains_None_In. }
    split; [tauto|].
    split; (split; [discriminate|tauto]).
  - apply orb_false_elim in Hn as [Hp Hs].
    assert (~ In None p) as Hp' by (rewrite <- contains_None_In; congruence).
    assert (~ In None s) as Hs' by (rewrite <- contains_None_In; congruence).
    destruct (response_eqb p s) eqn:He.
    + apply response_eqb_eq in He. subst s.
      exists (Message.success d rt (listing p)).
      split; [now apply compare_equal|]. rewrite outcome_of_success.
      split; [split; [discriminate|tauto]|].
      split; [tauto|].
      split; [discriminate|]. intros (_ & _ & H). now elim H.
    + apply response_eqb_neq in He.
      exists (Message.error d rt (listing p) (listing s)).
      split; [now apply compare_different|]. rewrite outcome_of_error.
      split; [split; [discriminate|tauto]|].
      split; [|tauto].
      split; [discriminate|tauto].
Qed.

(** ** The Warning report on the responses of [dns_query] *)

Lemma listing_of_texts (l : list string) :
  Forall (fun text => text <> EmptyString) l ->
  listing (map Some l) = Spec.listing (map Some l).
Proof.
  intros H. unfold listing, Spec.listing. f_equal.
  induction H as [|x l Hx H IH]; simpl; [reflexivity|].
  destruct x as [|c x]; [contradiction|]. now rewrite IH.
Qed.

Lemma listing_of_shaped (r : response) :
  dns_query_shaped r -> listing r = Spec.listing r.
Proof.
  intros [-> | [-> | (texts & H & ->)]]; [reflexivity..|].
  apply listing_of_texts.
  apply (Permutation_Forall (Permutation_sym (sorted_permutation texts)) H).
Qed.



Example warning_for_a_timed_out_secondary :
  compare_dns_response "example.org" "A"
    (map Some (Py.sorted ["93.184.216.34"; "10.0.0.1"])) [None]
  = Ret (Message.warning "example.org" "A"
           ("10.0.0.1" ++ Py.nl ++ "93.184.216.34") EmptyString).
Proof. reflexivity. Qed.

(** ** The reports of a run, in both modes *)

Lemma for_each_map {A B : Type} (f : A -> B) (xs : list A)
    (body : B -> M unit) (t : trace) :
  for_each (map f xs) body t = for_each xs (fun x => body (f x)) t.
Proof.
  revert t. induction xs as [|x xs IH]; intros t; simpl; [reflexivity|].
  unfold bind. destruct (body (f x) t) as [t' [[]|msg|e]];
    [apply IH|reflexivity..].
Qed.

Lemma query_records_as_pairs
    (w : world) (p s : string) (quiet_mode : bool) (line : line_data)
    (t : trace) :
  query_records w p s quiet_mode line t
  = for_each (map (pair (domain line)) (records line))
             (query_pair w p s quiet_mode) t.
Proof. rewrite for_each_map. reflexivity. Qed.

Lemma lines_as_pairs
    (w : world) (p s : string) (quiet_mode : bool) (data : list line_data)
    (t : trace) :
  for_each data (query_records w p s quiet_mode) t
  = for_each (pairs_of data) (query_pair w p s quiet_mode) t.
Proof.
  revert t. induction data as [|line data IH]; intros t; [reflexivity|].
  unfold pairs_of. simpl. rewrite for_each_app. unfold bind.
  rewrite query_records_as_pairs.
  destruct (for_each _ (query_pair w p s quiet_mode) t) as [t' [[]|msg|e]];
    [apply IH|reflexivity..].
Qed.

Lemma green_is_success (d rt : string) (pr sr : response) (text : string) :
  compare_dns_response d rt pr sr = Ret text ->
  Py.startswith text Fore.GREEN = is_success text.
Proof.
  unfold compare_dns_response.
  destruct (contains_None pr || contains_None sr).
  - rewrite format_warning. intros E. injection E as <-. reflexivity.
  - destruct (response_eqb pr sr).
    + rewrite format_success. intros E. injection E as <-. reflexivity.
    + rewrite format_error. intros E. injection E as <-. reflexivity.
Qed.

Section Reports.

Variable w : world.
Variables p s : string.
Variable quiet_mode : bool.

Lemma query_pair_run (d rt : string) (t : trace) :
  query_pair w p s quiet_mode (d, rt) t
  = match dns_query w p d rt t with
    | (t1, Ret pr) =>
        match dns_query w s d rt t1 with
        | (t2, Ret sr) =>
            match compare_dns_response d rt pr sr with
            | Ret text => report quiet_mode text t2
            | Exit msg => (t2, Exit msg)
            | Raise e => (t2, Raise e)
            end
        | (t2, Exit msg) => (t2, Exit msg)
        | (t2, Raise e) => (t2, Raise e)
        end
    | (t1, Exit msg) => (t1, Exit msg)
    | (t1, Raise e) => (t1, Raise e)
    end.
Proof.
  unfold query_pair, bind, lift. cbn [fst snd].
  destruct (dns_query w p d rt t) as [t1 [pr|msg|e]]; reflexivity.
Qed.

(** One pair: the two queries are made in turn; when both return, the
    report of the comparison is printed, unless it is a Success in quiet
    mode, and the loop goes on; when one does not, the run ends. *)
Lemma query_pair_step (d rt : string) (t : trace) :
  match response_of (resolve w (queries_of t) (Query p d rt)) with
  | None =>
      fst (query_pair w p s quiet_mode (d, rt) t)
      = t ++ [Resolve (Query p d rt)]
      /\ snd (query_pair w p s quiet_mode (d, rt) t) <> Ret tt
  | Some pr =>
      match response_of
              (resolve w (queries_of t ++ [Query p d rt]) (Query s d rt)) with
      | None =>
          fst (query_pair w p s quiet_mode (d, rt) t)
          = t ++ [Resolve (Query p d rt); Resolve (Query s d rt)]
          /\ snd (query_pair w p s quiet_mode (d, rt) t) <> Ret tt
      | Some sr =>
          exists text,
            compare_dns_response d rt pr sr = Ret text
            /\ query_pair w p s quiet_mode (d, rt) t
               = (t ++ [Resolve (Query p d rt); Resolve (Query s d rt)]
                    ++ (if is_success text && quiet_mode then []
                        else [Print text]),
                  Ret tt)
      end
  end.
Proof.
  rewrite !query_pair_run, !dns_query_step.
  destruct (resolve w (queries_of t) (Query p d rt)) eqn:Ep;
    cbn [response_of]; try (split; [reflexivity|discriminate]).
  all: rewrite !dns_query_step, !queries_of_app; cbn [queries_of app];
    destruct (resolve w (queries_of t ++ [Query p d rt]) (Query s d rt))
      eqn:Es;
    cbn [response_of];
    try (split; [now rewrite <- app_assoc|discriminate]).
  all: match goal with
       | |- exists text, compare_dns_response ?x ?y ?pr ?sr = _ /\ _ =>
           destruct (compare_returns x y pr sr) as (text & o & Ec & _);
           exists text; split; [exact Ec|];
           rewrite Ec; unfold report;
           rewrite (green_is_success x y pr sr text Ec);
           unfold print, emit, ret;
           destruct (is_success text && quiet_mode);
           rewrite <- ?app_assoc; cbn [app]; rewrite ?app_nil_r;
           reflexivity
       end.
Qed.

Lemma stdout_of_pairs (prs : list (string * string)) (t : trace) :
  stdout_of (fst (for_each prs (query_pair w p s quiet_mode) t))
  = stdout_of t
    ++ filter (fun text => negb (is_success text && quiet_mode))
              (reports_due w p s prs (queries_of t)).
Proof.
  revert t. induction prs as [|[d rt] prs IH]; intros t.
  - simpl. now rewrite app_nil_r.
  - cbn [for_each reports_due]. unfold bind at 1.
    pose proof (query_pair_step d rt t) as H.
    destruct (response_of (resolve w (queries_of t) (Query p d rt)))
      as [pr|].
    + destruct (response_of
                  (resolve w (queries_of t ++ [Query p d rt]) (Query s d rt)))
        as [sr|].
      * destruct H as (text & Ec & ->). rewrite Ec, IH.
        rewrite !stdout_of_app, !queries_of_app. cbn [filter].
        destruct (is_success text && quiet_mode); cbn;
          rewrite ?app_nil_r, <- ?app_assoc; reflexivity.
      * destruct H as [Ht Hr].
        destruct (query_pair w p s quiet_mode (d, rt) t) as [t' [[]|msg|e]];
          cbn [fst snd] in *; subst t';
          [now elim Hr|..]; rewrite stdout_of_app; reflexivity.
    + destruct H as [Ht Hr].
      destruct (query_pair w p s quiet_mode (d, rt) t) as [t' [[]|msg|e]];
        cbn [fst snd] in *; subst t';
        [now elim Hr|..]; rewrite stdout_of_app; reflexivity.
Qed.

Lemma stdout_of_main (f : string) :
  stdout_of (fst (main w p s f quiet_mode []))
  = match data_of_run w p s f with
    | Some data =>
        filter (fun text => negb (is_success text && quiet_mode))
               (reports_due w p s (pairs_of data) [])
    | None => []
    end.
Proof.
  rewrite main_cases. unfold data_of_run.
  destruct (ip_address w p); [|reflexivity].
  destruct (ip_address w s); [|reflexivity].
  destruct (file_lines w f) as [lines|] eqn:Hf; [|reflexivity].
  rewrite (parse_data_phases w p s f quiet_mode lines _ Hf).
  destruct (parse_lines (valid_lines lines) []); try reflexivity.
  rewrite lines_as_pairs, stdout_of_pairs. reflexivity.
Qed.

End Reports.

Lemma filter_all {A : Type} (l : list A) : filter (fun _ => true) l = l.
Proof. induction l as [|x l IH]; simpl; [reflexivity|now rewrite IH]. Qed.

(** Without quiet mode a run prints the reports it owes, all of them and
    nothing else; in quiet mode it prints those that are not a Success. *)
Lemma stdout_of_both_modes (w : world) (p s f : string) :
  stdout_of (fst (main w p s f false []))
  = match data_of_run w p s f with
    | Some data => reports_due w p s (pairs_of data) []
    | None => []
    end
  /\ stdout_of (fst (main w p s f true []))
     = match data_of_run w p s f with
       | Some data =>
           filter (fun text => negb (is_success text))
                  (reports_due w p s (pairs_of data) [])
       | None => []
       end.
Proof.
  rewrite !stdout_of_main. destruct (data_of_run w p s f) as [data|].
  - split.
    + rewrite <- (filter_all (reports_due w p s (pairs_of data) [])) at 2.
      apply filter_ext. intros text. now rewrite andb_false_r.
    + apply filter_ext. intros text. now rewrite andb_true_r.
  - split; reflexivity.
Qed.

Lemma reports_due_are_reports
    (w : world) (p s : string) (prs : list (string * string)) :
  forall h : list query,
    Forall (fun text => exists o : outcome, outcome_of text = Some o)
           (reports_due w p s prs h).
Proof.
  induction prs as [|[d rt] prs IH]; intros h; cbn [reports_due];
    [constructor|].
  destruct (response_of (resolve w h (Query p d rt))) as [pr|];
    [|constructor].
  destruct (response_of (resolve w (h ++ [Query p d rt]) (Query s d rt)))
    as [sr|]; [|constructor].
  destruct (compare_returns d rt pr sr) as (text & o & -> & Ho).
  constructor; [now exists o|apply IH].
Qed.

(** C5.  Whatever is compared, the comparison returns a report that
    announces an outcome; in quiet mode a Success prints nothing, and a
    Warning or an Error prints the report, the same line as without quiet
    mode.  So it is in a run: without quiet mode the run prints, in their
    order, the reports it owes for its pairs, one for every pair whose two
    queries return, whatever the outcome; in quiet mode it prints the
    same reports without those that are a Success, and every other one,
    unchanged and in the same order; it makes the same queries and ends
    the same way. *)
Theorem quiet_mode_suppresses_success_only
    (w : world) (ns1 ns2 f d rt : string) (p s : response) (t : trace) :
  (exists text : string,
      compare_dns_response d rt p s = Ret text
      /\ report false text t = (t ++ [Print text], Ret tt)
      /\ match outcome_of text with
         | Some Success => report true text t = (t, Ret tt)
         | Some Warning | Some Error =>
             report true text t = (t ++ [Print text], Ret tt)
         | None => False
         end)
  /\ snd (main w ns1 ns2 f true []) = snd (main w ns1 ns2 f false [])
  /\ queries_of (fst (main w ns1 ns2 f true []))
     = queries_of (fst (main w ns1 ns2 f false []))
  /\ stdout_of (fst (main w ns1 ns2 f true []))
     = filter (fun text => negb (Py.startswith text Fore.GREEN))
              (stdout_of (fst (main w ns1 ns2 f false [])))
  /\ stdout_of (fst (main w ns1 ns2 f false []))
     = match data_of_run w ns1 ns2 f with
       | Some data => reports_due w ns1 ns2 (pairs_of data) []
       | None => []
       end
  /\ stdout_of (fst (main w ns1 ns2 f true []))
     = match data_of_run w ns1 ns2 f with
       | Some data =>
           filter (fun text => negb (is_success text))
                  (reports_due w ns1 ns2 (pairs_of data) [])
       | None => []
       end
  /\ forall (data : list line_data) (h : list query),
       Forall (fun text => exists o : outcome, outcome_of text = Some o)
              (reports_due w ns1 ns2 (pairs_of data) h).
Proof.
  split; [apply report_by_outcome|].
  destruct (quiet_run w ns1 ns2 f) as (H1 & H2 & H3).
  destruct (stdout_of_both_modes w ns1 ns2 f) as [H4 H5].
  repeat (split; [assumption|]).
  intros data h. apply reports_due_are_reports.
Qed.

(** Servers that disagree on one pair of three: the run prints three
    reports, and in quiet mode the Error alone. *)
Example runs_of_disagreeing_servers :
  stdout_of (fst (main Sample3.disagreeing "208.67.222.222" "8.8.8.8"
                    "domains.txt" false []))
  = [Message.success "example.org" "A" "93.184.216.34";
     Message.error "example.org" "MX" "93.184.216.34"
       ("10.0.0.1" ++ Py.nl ++ "10.0.0.2");
     Message.success "example.com" EmptyString "93.184.216.34"]
  /\ stdout_of (fst (main Sample3.disagreeing "208.67.222.222" "8.8.8.8"
                       "domains.txt" true []))
     = [Message.error "example.org" "MX" "93.184.216.34"
          ("10.0.0.1" ++ Py.nl ++ "10.0.0.2")].
Proof. split; reflexivity. Qed.

(** ** A run that nothing stops, with its reports *)

Lemma returns_response_of (a : answer) :
  returns_response a = true -> exists r, response_of a = Some r.
Proof. destruct a; try discriminate; simpl; eauto. Qed.

Lemma reports_due_unstopped
    (w : world) (p s : string) (prs : list (string * string)) :
  (forall h q, returns_response (resolve w h q) = true) ->
  forall h : list query,
    Forall2 (fun pr text =>
               exists r1 r2 : response,
                 compare_dns_response (fst pr) (snd pr) r1 r2 = Ret text)
            prs (reports_due w p s prs h).
Proof.
  intros Hret. induction prs as [|[d rt] prs IH]; intros h;
    cbn [reports_due]; [constructor|].
  destruct (returns_response_of _ (Hret h (Query p d rt))) as [r1 ->].
  destruct (returns_response_of _
              (Hret (h ++ [Query p d rt]) (Query s d rt))) as [r2 ->].
  destruct (compare_returns d rt r1 r2) as (text & o & Ec & _). rewrite Ec.
  constructor; [now exists r1, r2|apply IH].
Qed.


